(** * The e-commerce admin backend (server.js): request handlers over Users,
      Products and Orders

    The Express routes of [server.js] are embedded as functions from the
    database state to a response and a new database state.  The three
    mongoose collections are lists of documents in insertion order; an
    [await]ed database call is a step of a small state-and-exception monad;
    [try { ... } catch (err) { ... }] is [try_catch].

    Conventions of the embedding:
    - a stored [ObjectId] is a natural number; [new Model(...)] draws it
      from a counter kept beside the collections; an identifier that a request
      carries is the string it was sent as, which mongoose casts;
    - a JavaScript number is an integer ([Z]); floating-point rounding is not
      modelled;
    - the text fields of the auth, wishlist and order bodies are strings (a
      field that a handler lets be absent is an [option]); the fields of the
      product body that the handler tests with [!] are primitive JavaScript
      values ([value]);
    - bcryptjs, JavaScript's [Number(string)] and exponent rendering of
      large numbers, and mongoose's cast and printing of an [ObjectId] are
      parameters of the development. *)

From Stdlib Require Import String List ZArith Bool Arith Lia DecimalString.
From Stdlib Require Import Ascii.
From Stdlib Require DecimalPos DecimalZ.
Import ListNotations.
Local Open Scope string_scope.
Local Open Scope list_scope.

(** ** JavaScript values *)

Definition ObjectId := nat.

(** Primitive values a parsed request body can carry in a scalar field. *)
Inductive value : Type :=
| VUndefined
| VNull
| VBool (b : bool)
| VNum (n : Z)
| VStr (s : string).

(** ECMAScript ToBoolean: what [!v], [if (v)] and [v || d] test. *)
Definition truthy (v : value) : bool :=
  match v with
  | VUndefined | VNull => false
  | VBool b => b
  | VNum n => negb (n =? 0)%Z
  | VStr s => negb (s =? "")
  end.

(** [v || d] *)
Definition js_or (v d : value) : value := if truthy v then v else d.

(** [`${n}`] for an integer number. *)
Definition Number_toString (n : Z) : string := NilZero.string_of_int (Z.to_int n).

(** [a !== b] on two strings. *)
Definition strict_neq (a b : string) : bool := negb (a =? b).

(** [includes] of a mongoose array of identifiers, asked for the string of a
    request: the string is compared, by [==], with what each stored
    identifier prints as ([toString]). *)
Definition includes (toString : ObjectId -> string) (x : string) (l : list ObjectId)
  : bool :=
  existsb (fun y => x =? toString y) l.

(** ** Schemas *)

Module User.
(** [UserSchema] *)
Record t : Type := mk {
  _id : ObjectId;
  name : string;
  email : string;
  password : string;
  role : string;
  isFirstLogin : bool;
  wishlist : list ObjectId
}.

Definition role_enum : list string := ["user"; "admin"].
Definition role_default : string := "user".
Definition isFirstLogin_default : bool := true.

Definition set_isFirstLogin (b : bool) (u : t) : t :=
  mk (_id u) (name u) (email u) (password u) (role u) b (wishlist u).

(** [user.wishlist.push(productId)], once [productId] is cast. *)
Definition wishlist_push (p : ObjectId) (u : t) : t :=
  mk (_id u) (name u) (email u) (password u) (role u) (isFirstLogin u) (wishlist u ++ [p]).
End User.

Module Product.
(** [ProductSchema] *)
Record t : Type := mk {
  _id : ObjectId;
  name : option string;
  price : option Z;
  image : option string;
  category : string
}.

Definition category_enum : list string := ["men"; "women"; "kids"].
End Product.

Module Item.
(** An element of [OrderSchema.products]: the snapshot of one line. *)
Record t : Type := mk {
  productId : ObjectId;
  productName : option string;
  productPrice : option Z;
  quantity : Z
}.
End Item.

Module Order.
(** [OrderSchema] *)
Record t : Type := mk {
  _id : ObjectId;
  userId : ObjectId;
  products : list Item.t;
  totalAmount : Z;
  status : string;
  createdAt : Z
}.

Definition status_enum : list string := ["Pending"; "Shipped"; "Delivered"].
Definition status_default : string := "Pending".

Definition set_status (st : string) (o : t) : t :=
  mk (_id o) (userId o) (products o) (totalAmount o) st (createdAt o).
End Order.

(** ** The database *)

Record Db : Type := mkDb {
  Users : list User.t;
  Products : list Product.t;
  Orders : list Order.t;
  nextId : ObjectId
}.

Definition empty_db : Db := mkDb [] [] [] 0.

Definition set_Users (f : list User.t -> list User.t) (s : Db) : Db :=
  mkDb (f (Users s)) (Products s) (Orders s) (nextId s).
Definition set_Products (f : list Product.t -> list Product.t) (s : Db) : Db :=
  mkDb (Users s) (f (Products s)) (Orders s) (nextId s).
Definition set_Orders (f : list Order.t -> list Order.t) (s : Db) : Db :=
  mkDb (Users s) (Products s) (f (Orders s)) (nextId s).

(** ** Responses *)

(** The JSON bodies the routes send. *)
Inductive Body : Type :=
| JFail (message : option string)            (* { success: false, message } *)
| JSuccess                                   (* { success: true } *)
| JRole (role : string)                      (* { success: true, role } *)
| JLogin (role : string) (isNewUser : bool)  (* { success: true, role, isNewUser } *)
| JProduct (product : Product.t)             (* { success: true, product } *)
| JOrder (order : option Order.t)            (* { success: true, order } *)
| JProducts (products : list Product.t)      (* an array of products *)
| JAnalytics (totalUsers totalAdmins totalProducts totalOrders : nat)
             (totalRevenue : value).

Record Response : Type := mkResponse { status : nat; body : Body }.

(** [res.status(c).json(b)] and [res.json(b)] *)
Definition res_status (c : nat) (b : Body) : Response := mkResponse c b.
Definition res_json (b : Body) : Response := mkResponse 200 b.

(** ** Awaited calls: state and exceptions *)

(** What a rejected promise carries. *)
Inductive exn : Type :=
| Error_ProductNotFound (productId : string)  (* Error(`Product not found: ${id}`) *)
| ValidationError (path : string)
| CastError (path : string)
| DuplicateKey (path : string).

Inductive result (A : Type) : Type :=
| Ok (a : A)
| Throw (e : exn).
Arguments Ok {A} a.
Arguments Throw {A} e.

Definition M (A : Type) : Type := Db -> result A * Db.

Definition ret {A} (a : A) : M A := fun s => (Ok a, s).
Definition throw {A} (e : exn) : M A := fun s => (Throw e, s).
Definition bind {A B} (m : M A) (k : A -> M B) : M B :=
  fun s => match m s with
           | (Ok a, s') => k a s'
           | (Throw e, s') => (Throw e, s')
           end.
Definition gets {A} (f : Db -> A) : M A := fun s => (Ok (f s), s).
Definition modify (f : Db -> Db) : M unit := fun s => (Ok tt, f s).

Notation "x <- m ;; k" := (bind m (fun x => k))
  (at level 61, m at next level, right associativity).

(** [try { body } catch (err) { handler }] around a route body. *)
Definition try_catch (body : M Response) (handler : exn -> Response)
  : Db -> Response * Db :=
  fun s => match body s with
           | (Ok r, s') => (r, s')
           | (Throw e, s') => (handler e, s')
           end.

(** [await Promise.all(ps)]: every promise is awaited, the first rejection in
    the array rejects the whole.  The promises of this program only read the
    database, so the order in which they settle does not show. *)
Fixpoint Promise_all {A} (ps : list (M A)) : M (list A) :=
  match ps with
  | [] => ret []
  | p :: ps' => x <- p ;; xs <- Promise_all ps' ;; ret (x :: xs)
  end.

(** ** mongoose model calls *)

(** Fresh identifier of [new Model(...)]. *)
Definition new_ObjectId : M ObjectId :=
  fun s => (Ok (nextId s), mkDb (Users s) (Products s) (Orders s) (S (nextId s))).

(** First document in [l] whose identifier is [id] goes through [f]. *)
Fixpoint updateById {A} (get_id : A -> ObjectId) (id : ObjectId) (f : A -> A) (l : list A)
  : list A :=
  match l with
  | [] => []
  | x :: l' => if Nat.eqb (get_id x) id then f x :: l' else x :: updateById get_id id f l'
  end.

(** First document in [l] whose identifier is [id] is removed. *)
Fixpoint deleteById {A} (get_id : A -> ObjectId) (id : ObjectId) (l : list A) : list A :=
  match l with
  | [] => []
  | x :: l' => if Nat.eqb (get_id x) id then l' else x :: deleteById get_id id l'
  end.

(** [User.findOne({ email })] *)
Definition User_findOne (email : string) : M (option User.t) :=
  gets (fun s => find (fun u => User.email u =? email) (Users s)).

(** [new User({ name, email, password, role })]: schema defaults applied. *)
Definition User_new (name email password : string) (role : option string) : M User.t :=
  id <- new_ObjectId ;;
  ret (User.mk id name email password
         (match role with Some r => r | None => User.role_default end)
         User.isFirstLogin_default []).

(** [doc.save()] of a new user: schema validation, the unique index on
    [email], then the insert. *)
Definition User_insert (u : User.t) : M User.t :=
  if negb (existsb (String.eqb (User.role u)) User.role_enum)
  then throw (ValidationError "role")
  else
    dup <- gets (fun s => existsb (fun v => User.email v =? User.email u) (Users s)) ;;
    if (dup : bool) then throw (DuplicateKey "email")
    else _ <- modify (set_Users (fun l => l ++ [u])) ;; ret u.

(** [user.save()] of a fetched user: the modified paths are written to the
    document with the user's [_id]. *)
Definition User_save (u : User.t) (paths : User.t -> User.t) : M unit :=
  modify (set_Users (updateById User._id (User._id u) paths)).

(** The cast of an identifier that came with a request: a string that is
    no well-formed ObjectId rejects the query with a CastError. *)
Definition cast_id (castObjectId : string -> option ObjectId) (path id : string)
  : M ObjectId :=
  match castObjectId id with
  | Some id' => ret id'
  | None => throw (CastError path)
  end.

(** [Product.findById(id)] *)
Definition Product_findById (castObjectId : string -> option ObjectId) (id : string)
  : M (option Product.t) :=
  id' <- cast_id castObjectId "_id" id ;;
  gets (fun s => find (fun p => Nat.eqb (Product._id p) id') (Products s)).

(** [Product.find(filter)] *)
Definition Product_find (category : option string) : M (list Product.t) :=
  gets (fun s => match category with
                 | Some c => filter (fun p => Product.category p =? c) (Products s)
                 | None => Products s
                 end).

(** [Product.findByIdAndDelete(id)] *)
Definition Product_findByIdAndDelete (castObjectId : string -> option ObjectId)
  (id : string) : M (option Product.t) :=
  id' <- cast_id castObjectId "_id" id ;;
  found <- gets (fun s => find (fun p => Nat.eqb (Product._id p) id') (Products s)) ;;
  _ <- modify (set_Products (deleteById Product._id id')) ;;
  ret found.

(** [new Order({ userId, products, totalAmount })]: [status] and [createdAt]
    take their defaults; [now] is [Date.now()]. *)
Definition Order_new (now : Z) (userId : ObjectId) (products : list Item.t) (totalAmount : Z)
  : M Order.t :=
  id <- new_ObjectId ;;
  ret (Order.mk id userId products totalAmount Order.status_default now).

(** [order.save()] of a new order. *)
Definition Order_insert (o : Order.t) : M Order.t :=
  if negb (existsb (String.eqb (Order.status o)) Order.status_enum)
  then throw (ValidationError "status")
  else _ <- modify (set_Orders (fun l => l ++ [o])) ;; ret o.

(** [Order.findByIdAndUpdate(id, { status }, { new: true })]; update
    validators are off, so the enum is not checked here. *)
Definition Order_findByIdAndUpdate (castObjectId : string -> option ObjectId)
  (id : string) (st : string) : M (option Order.t) :=
  id' <- cast_id castObjectId "_id" id ;;
  _ <- modify (set_Orders (updateById Order._id id' (Order.set_status st))) ;;
  gets (fun s => find (fun o => Nat.eqb (Order._id o) id') (Orders s)).

(** [Model.countDocuments(filter)] *)
Definition countDocuments {A} (coll : Db -> list A) (filter_ : A -> bool) : M nat :=
  gets (fun s => length (filter filter_ (coll s))).

(** [Order.aggregate([{ $group: { _id: null, revenue: { $sum: "$totalAmount" } } }])]:
    one group over all documents, its accumulator starting at 0; no group
    and so an empty array when the collection is empty. *)
Definition Order_aggregate_revenue : M (list Z) :=
  gets (fun s => match Orders s with
                 | [] => []
                 | _ => [fold_left (fun acc o => (acc + Order.totalAmount o)%Z) (Orders s) 0%Z]
                 end).

(** mongoose's cast of a body value to a [String] path: [None] when the path
    stays unset.  A number prints in decimal below 10^21 and in exponent
    form ("1e+21") from there on. *)
Definition castString (Number_toExponential : Z -> string) (v : value) : option string :=
  match v with
  | VUndefined | VNull => None
  | VBool b => Some (if b then "true" else "false")
  | VNum n => Some (if (Z.abs n <? 10 ^ 21)%Z then Number_toString n
                    else Number_toExponential n)
  | VStr s => Some s
  end.

(** ** Request bodies *)

Module SignupBody.
Record t : Type := mk {
  name : string; email : string; password : string; confirm : string;
  role : option string
}.
End SignupBody.

Module LoginBody.
Record t : Type := mk { email : string; password : string; role : option string }.
End LoginBody.

Module WishlistBody.
Record t : Type := mk { email : string; productId : string }.
End WishlistBody.

Module ProductBody.
(** [req.body] of POST /products and [req.file.filename] of the upload. *)
Record t : Type := mk {
  name : value; price : value; category : value; imageUrl : value;
  file : option string
}.
End ProductBody.

Module OrderLine.
Record t : Type := mk { productId : string; quantity : Z }.
End OrderLine.

Module OrderBody.
Record t : Type := mk {
  email : string; products : list OrderLine.t; totalAmount : Z
}.
End OrderBody.

(** ** The routes *)

Section Routes.

(** [bcrypt.hash(password, 10)], with the salt it draws, and
    [bcrypt.compare(password, hash)]. *)
Variable bcrypt_hash : string -> string -> string.
Variable bcrypt_compare : string -> string -> bool.

(** JavaScript's [Number(s)] on a string; [None] is NaN. *)
Variable Number_of_string : string -> option Z.

(** JavaScript's [String(n)] on a number of magnitude 10^21 or more. *)
Variable Number_toExponential : Z -> string.

(** mongoose's cast of a string to an ObjectId, [None] where it throws a
    CastError, and what an ObjectId prints as. *)
Variable castObjectId : string -> option ObjectId.
Variable ObjectId_toString : ObjectId -> string.

(** mongoose's cast of a body value to a [Number] path. *)
Definition castNumber (path : string) (v : value) : result (option Z) :=
  match v with
  | VUndefined | VNull => Ok None
  | VBool b => Ok (Some (if b then 1 else 0)%Z)
  | VNum n => Ok (Some n)
  | VStr s => if s =? "" then Ok None
              else match Number_of_string s with
                   | Some n => Ok (Some n)
                   | None => Throw (CastError path)
                   end
  end.

(** [new Product({ name, price, category, image })] followed by
    [product.save()]: casts, then [category]'s [required] and [enum]. *)
Definition Product_new_save (name price category image : value) : M Product.t :=
  id <- new_ObjectId ;;
  match castNumber "price" price with
  | Throw e => throw e
  | Ok price' =>
      match castString Number_toExponential category with
      | None => throw (ValidationError "category")
      | Some c =>
          if negb (existsb (String.eqb c) Product.category_enum)
          then throw (ValidationError "category")
          else
            let product := Product.mk id (castString Number_toExponential name) price'
                                      (castString Number_toExponential image) c in
            _ <- modify (set_Products (fun l => l ++ [product])) ;;
            ret product
      end
  end.

(** POST /signup *)
Definition signup (salt : string) (req : SignupBody.t) : Db -> Response * Db :=
  try_catch
    (if strict_neq (SignupBody.password req) (SignupBody.confirm req)
     then ret (res_status 400 (JFail (Some "Passwords do not match")))
     else
       exists_ <- User_findOne (SignupBody.email req) ;;
       match exists_ with
       | Some _ => ret (res_status 409 (JFail (Some "Email already exists")))
       | None =>
           let hashed := bcrypt_hash salt (SignupBody.password req) in
           doc <- User_new (SignupBody.name req) (SignupBody.email req) hashed
                           (SignupBody.role req) ;;
           newUser <- User_insert doc ;;
           ret (res_json (JRole (User.role newUser)))
       end)
    (fun _ => res_status 500 (JFail (Some "Server error"))).

(** POST /login *)
Definition login (req : LoginBody.t) : Db -> Response * Db :=
  try_catch
    (user <- User_findOne (LoginBody.email req) ;;
     match user with
     | None => ret (res_status 404 (JFail (Some "User not found")))
     | Some user =>
         let match_ := bcrypt_compare (LoginBody.password req) (User.password user) in
         if negb match_
         then ret (res_status 401 (JFail (Some "Invalid password")))
         else
           if match LoginBody.role req with
              | Some r => strict_neq (User.role user) r
              | None => true
              end
           then ret (res_status 403
                       (JFail (Some ("Incorrect role. Registered as " ++ User.role user)%string)))
           else
             let isNewUser := User.isFirstLogin user in
             _ <- (if isNewUser
                   then User_save user (User.set_isFirstLogin false)
                   else ret tt) ;;
             ret (res_json (JLogin (User.role user) isNewUser))
     end)
    (fun _ => res_status 500 (JFail (Some "Server error"))).

(** POST /wishlist *)
Definition addToWishlist (req : WishlistBody.t) : Db -> Response * Db :=
  try_catch
    (user <- User_findOne (WishlistBody.email req) ;;
     match user with
     | None => ret (res_status 404 (JFail (Some "User not found")))
     | Some user =>
         _ <- (if negb (includes ObjectId_toString (WishlistBody.productId req)
                                 (User.wishlist user))
               then
                 productId <- cast_id castObjectId "wishlist" (WishlistBody.productId req) ;;
                 User_save user (User.wishlist_push productId)
               else ret tt) ;;
         ret (res_json JSuccess)
     end)
    (fun _ => res_status 500 (JFail None)).

(** GET /products *)
Definition listProducts (category : option string) : Db -> Response * Db :=
  try_catch
    (products <- Product_find (match category with
                               | Some c => if c =? "" then None else Some c
                               | None => None
                               end) ;;
     ret (res_json (JProducts products)))
    (fun _ => res_status 500 (JFail (Some "Failed to fetch products"))).

(** POST /products *)
Definition createProduct (req : ProductBody.t) : Db -> Response * Db :=
  try_catch
    (if negb (truthy (ProductBody.name req))
        || negb (truthy (ProductBody.price req))
        || negb (truthy (ProductBody.category req))
     then ret (res_status 400 (JFail (Some "All fields required")))
     else
       match
         match ProductBody.file req with
         | Some filename => Some (VStr ("/uploads/" ++ filename))
         | None =>
             if truthy (ProductBody.imageUrl req)
             then Some (ProductBody.imageUrl req)
             else None
         end
       with
       | None => ret (res_status 400 (JFail (Some "Image is required")))
       | Some image =>
           product <- Product_new_save (ProductBody.name req) (ProductBody.price req)
                                       (ProductBody.category req) image ;;
           ret (res_json (JProduct product))
       end)
    (fun _ => res_status 500 (JFail (Some "Server error"))).

(** DELETE /products/:id *)
Definition deleteProduct (id : string) : Db -> Response * Db :=
  try_catch
    (_ <- Product_findByIdAndDelete castObjectId id ;;
     ret (res_json JSuccess))
    (fun _ => res_status 500 (JFail (Some "Delete failed"))).

(** The callback that POST /orders maps over [products]. *)
Definition resolveLine (p : OrderLine.t) : M Item.t :=
  product <- Product_findById castObjectId (OrderLine.productId p) ;;
  match product with
  | None => throw (Error_ProductNotFound (OrderLine.productId p))
  | Some product =>
      ret (Item.mk (Product._id product) (Product.name product)
                   (Product.price product) (OrderLine.quantity p))
  end.

(** POST /orders; [now] is the clock read by the [createdAt] default. *)
Definition createOrder (now : Z) (req : OrderBody.t) : Db -> Response * Db :=
  try_catch
    (user <- User_findOne (OrderBody.email req) ;;
     match user with
     | None => ret (res_status 404 (JFail (Some "User not found")))
     | Some user =>
         productData <- Promise_all (map resolveLine (OrderBody.products req)) ;;
         doc <- Order_new now (User._id user) productData (OrderBody.totalAmount req) ;;
         order <- Order_insert doc ;;
         ret (res_json (JOrder (Some order)))
     end)
    (fun _ => res_status 500 (JFail (Some "Failed to create order"))).

(** PUT /orders/:id *)
Definition updateOrderStatus (id : string) (st : string) : Db -> Response * Db :=
  try_catch
    (order <- Order_findByIdAndUpdate castObjectId id st ;;
     ret (res_json (JOrder order)))
    (fun _ => res_status 500 (JFail (Some "Failed to update order"))).

(** GET /analytics *)
Definition getAnalytics : Db -> Response * Db :=
  try_catch
    (totalUsers <- countDocuments Users (fun _ => true) ;;
     totalAdmins <- countDocuments Users (fun u => User.role u =? "admin") ;;
     totalProducts <- countDocuments Products (fun _ => true) ;;
     totalOrders <- countDocuments Orders (fun _ => true) ;;
     totalRevenueAgg <- Order_aggregate_revenue ;;
     ret (res_json
            (JAnalytics totalUsers totalAdmins totalProducts totalOrders
               (js_or (match totalRevenueAgg with
                       | [] => VUndefined
                       | g :: _ => VNum g
                       end)
                      (VNum 0)))))
    (fun _ => res_status 500 (JFail (Some "Analytics failed"))).

(** ** The server as a transition system

    The routes that write, and the two reads that the properties below
    speak of.  GET /wishlist/:email, GET /orders and GET / only read and are
    left out. *)

Inductive Request : Type :=
| POST_signup (salt : string) (req : SignupBody.t)
| POST_login (req : LoginBody.t)
| POST_wishlist (req : WishlistBody.t)
| GET_products (category : option string)
| POST_products (req : ProductBody.t)
| DELETE_products (id : string)
| POST_orders (now : Z) (req : OrderBody.t)
| PUT_orders (id : string) (st : string)
| GET_analytics.

Definition handle (r : Request) : Db -> Response * Db :=
  match r with
  | POST_signup salt req => signup salt req
  | POST_login req => login req
  | POST_wishlist req => addToWishlist req
  | GET_products c => listProducts c
  | POST_products req => createProduct req
  | DELETE_products id => deleteProduct id
  | POST_orders now req => createOrder now req
  | PUT_orders id st => updateOrderStatus id st
  | GET_analytics => getAnalytics
  end.

(** The responses to a sequence of requests served one after the other,
    and the database they leave. *)
Fixpoint serve (rs : list Request) (s : Db) : list Response * Db :=
  match rs with
  | [] => ([], s)
  | r :: rs' =>
      let (resp, s1) := handle r s in
      let (resps, s2) := serve rs' s1 in
      (resp :: resps, s2)
  end.

(** The databases the server can be in, started on empty collections. *)
Inductive reachable : Db -> Prop :=
| reachable_init : reachable empty_db
| reachable_step s r : reachable s -> reachable (snd (handle r s)).

End Routes.

(** * Vocabulary of the properties *)

(** The sum of the [totalAmount] field over a list of orders. *)
Fixpoint revenue_sum (l : list Order.t) : Z :=
  match l with
  | [] => 0
  | o :: l' => Order.totalAmount o + revenue_sum l'
  end.

(** The [totalRevenue] field of an analytics response. *)
Definition totalRevenue (r : Response) : option value :=
  match body r with
  | JAnalytics _ _ _ _ v => Some v
  | _ => None
  end.

(** The [message] of a failure body. *)
Definition message_of (r : Response) : option string :=
  match body r with
  | JFail m => m
  | _ => None
  end.

(** [sub] occurs in [s]. *)
Definition occurs_in (sub s : string) : Prop :=
  exists pre post, s = (pre ++ sub ++ post)%string.

(** The product that an identifier sent with a request names: none when the
    string is no well-formed ObjectId, and none when no product has it. *)
Definition resolve (castObjectId : string -> option ObjectId) (id : string)
  (products : list Product.t) : option Product.t :=
  match castObjectId id with
  | Some id' => find (fun q => Nat.eqb (Product._id q) id') products
  | None => None
  end.

(** A line of an order body names a product that is not in the database. *)
Definition unresolved (castObjectId : string -> option ObjectId) (req : OrderBody.t)
  (s : Db) : Prop :=
  exists p, In p (OrderBody.products req)
            /\ resolve castObjectId (OrderLine.productId p) (Products s) = None.



(** The stored [isFirstLogin] of the user that [User.findOne({ email })]
    returns. *)
Definition stored_isFirstLogin (email : string) (s : Db) : option bool :=
  option_map User.isFirstLogin (find (fun u => User.email u =? email) (Users s)).

(** User identifiers are pairwise distinct and below the counter. *)
Definition wf (s : Db) : Prop :=
  NoDup (map User._id (Users s))
  /\ Forall (fun i => i < nextId s) (map User._id (Users s)).


(** The email and the [isNewUser] of a successful login. *)
Definition login_answer (r : Request) (resp : Response) : option (string * bool) :=
  match r, status resp, body resp with
  | POST_login req, 200, JLogin _ b => Some (LoginBody.email req, b)
  | _, _, _ => None
  end.

(** The [isNewUser] values that the successful logins of [e] were answered,
    in the order of the requests. *)
Fixpoint isNewUser_answers (e : string) (rs : list Request) (resps : list Response)
  : list bool :=
  match rs, resps with
  | r :: rs', resp :: resps' =>
      match login_answer r resp with
      | Some (e', b) =>
          if e' =? e then b :: isNewUser_answers e rs' resps'
          else isNewUser_answers e rs' resps'
      | None => isNewUser_answers e rs' resps'
      end
  | _, _ => []
  end.

(** [true] at the head, if there is one, and [false] ever after. *)
Definition true_once (l : list bool) : bool :=
  match l with
  | [] => true
  | b :: l' => b && forallb negb l'
  end.

(** What one request can do to the Users collection. *)
Inductive users_step (castObjectId : string -> option ObjectId)
  (ObjectId_toString : ObjectId -> string)
  (r : Request) (resp : Response) (s s' : Db) : Prop :=
| us_same :
    Users s' = Users s -> nextId s <= nextId s' ->
    login_answer r resp = None ->
    users_step castObjectId ObjectId_toString r resp s s'
| us_signup (u : User.t) :
    Users s' = Users s ++ [u] -> User._id u = nextId s -> nextId s' = S (nextId s) ->
    User.isFirstLogin u = true -> User.wishlist u = [] ->
    find (fun v => User.email v =? User.email u) (Users s) = None ->
    login_answer r resp = None ->
    users_step castObjectId ObjectId_toString r resp s s'
| us_login (u : User.t) (req : LoginBody.t) :
    r = POST_login req ->
    find (fun v => User.email v =? LoginBody.email req) (Users s) = Some u ->
    resp = res_json (JLogin (User.role u) (User.isFirstLogin u)) ->
    Users s' = (if User.isFirstLogin u
                then updateById User._id (User._id u) (User.set_isFirstLogin false) (Users s)
                else Users s) ->
    nextId s' = nextId s ->
    users_step castObjectId ObjectId_toString r resp s s'
| us_wishlist (u : User.t) (p : ObjectId) (req : WishlistBody.t) :
    r = POST_wishlist req ->
    castObjectId (WishlistBody.productId req) = Some p ->
    In u (Users s) ->
    includes ObjectId_toString (WishlistBody.productId req) (User.wishlist u) = false ->
    Users s' = updateById User._id (User._id u) (User.wishlist_push p) (Users s) ->
    nextId s' = nextId s ->
    login_answer r resp = None ->
    users_step castObjectId ObjectId_toString r resp s s'.

(** * Sample data

    A database with one user and one product, and stand-ins for the
    parameters, on which the routes are run below. *)

Module Sample.
(** A stand-in for bcryptjs that keeps the password readable. *)
Definition hash (salt password : string) : string := password.
Definition compare (password hashed : string) : bool := password =? hashed.

(** Decimal integers only. *)
Definition Number_of_string (s : string) : option Z :=
  option_map Z.of_int (NilZero.int_of_string s).

(** Exponent form with the mantissa cut to its integer part. *)
Definition Number_toExponential (n : Z) : string :=
  (Number_toString (n / 10 ^ 21) ++ "e+21")%string.

(** The value of a hexadecimal digit, in either case, from its character
    code: the digits start at 48, the capitals at 65, the small letters at
    97. *)
Definition hex_digit (c : ascii) : option nat :=
  let code := nat_of_ascii c in
  if Nat.leb 48 code && Nat.leb code 57 then Some (code - 48)
  else if Nat.leb 65 code && Nat.leb code 70 then Some (code - 55)
  else if Nat.leb 97 code && Nat.leb code 102 then Some (code - 87)
  else None.

Fixpoint hex_value (s : string) (acc : nat) : option nat :=
  match s with
  | EmptyString => Some acc
  | String c s' =>
      match hex_digit c with
      | Some d => hex_value s' (16 * acc + d)
      | None => None
      end
  end.

(** An ObjectId is spelled with 24 hexadecimal digits of either case. *)
Definition castObjectId (id : string) : option ObjectId :=
  if Nat.eqb (String.length id) 24 then hex_value id 0 else None.

Definition hex_char (d : nat) : ascii :=
  ascii_of_nat (if Nat.ltb d 10 then 48 + d else 87 + d).

Fixpoint hex_digits (k n : nat) : string :=
  match k with
  | 0 => ""
  | S k' => (hex_digits k' (n / 16) ++ String (hex_char (n mod 16)) "")%string
  end.

(** It prints as 24 hexadecimal digits in lower case. *)
Definition ObjectId_toString (id : ObjectId) : string := hex_digits 24 id.

Definition alice : User.t :=
  User.mk 0 "Alice" "alice@example.com" "secret" "user" true [].

Definition tee : Product.t :=
  Product.mk 1 (Some "Tee") (Some 499%Z) (Some "http://x/y.png") "men".

Definition db : Db := mkDb [alice] [tee] [] 2.

Definition signup_alice : SignupBody.t :=
  SignupBody.mk "Alice" "alice@example.com" "secret" "secret" None.

Definition signup_typo : SignupBody.t :=
  SignupBody.mk "Alice" "alice@example.com" "secret" "secert" None.

Definition login_as_admin : LoginBody.t :=
  LoginBody.mk "alice@example.com" "secret" (Some "admin").



Definition free_tee : ProductBody.t :=
  ProductBody.mk (VStr "Tee") (VNum 0) (VStr "men") (VStr "http://x/y.png") None.

(** An order of two lines; no product has identifier 7. *)
Definition order_ghost : OrderBody.t :=
  OrderBody.mk "alice@example.com"
    [OrderLine.mk "000000000000000000000001" 2%Z;
     OrderLine.mk "000000000000000000000007" 1%Z] 1497%Z.

(** The database after Alice has signed up on empty collections. *)
Definition after_signup : Db :=
  snd (handle hash compare Number_of_string Number_toExponential castObjectId
         ObjectId_toString (POST_signup "salt" signup_alice) empty_db).
End Sample.

(** * The remaining routes and helpers *)

(** The [filename] callback of the multer disk storage:
    [Date.now() + "-" + file.originalname]; [now] is [Date.now()]. *)
Definition upload_filename (now : Z) (originalname : string) : string :=
  (Number_toString now ++ "-" ++ originalname)%string.

(** [.populate("wishlist")]: each identifier of the array is replaced by the
    product it names, in the order of the array; an identifier that names no
    product is dropped. *)
Definition populate_wishlist (products : list Product.t) (wishlist : list ObjectId)
  : list Product.t :=
  flat_map (fun id => match find (fun p => Nat.eqb (Product._id p) id) products with
                      | Some p => [p]
                      | None => []
                      end) wishlist.

(** [User.findOne({ email }).populate("wishlist")]: the user and the
    populated wishlist. *)
Definition User_findOne_populate (email : string) : M (option (User.t * list Product.t)) :=
  user <- User_findOne email ;;
  match user with
  | None => ret None
  | Some user =>
      products <- gets Products ;;
      ret (Some (user, populate_wishlist products (User.wishlist user)))
  end.

(** GET /wishlist/:email *)
Definition getWishlist (email : string) : Db -> Response * Db :=
  try_catch
    (user <- User_findOne_populate email ;;
     match user with
     | None => ret (res_status 404 (JFail (Some "User not found")))
     | Some (_, wishlist) => ret (res_json (JProducts wishlist))
     end)
    (fun _ => res_status 500 (JFail None)).

(** ** Vocabulary of the further properties *)

(** [l'] is [l] with each document possibly replaced by one that [R] relates
    to it, followed by further documents. *)
Definition extends {A} (R : A -> A -> Prop) (l l' : list A) : Prop :=
  exists l1 tail, l' = l1 ++ tail /\ Forall2 R l l1.

(** What may become of a stored user: the identifier, name, email, password
    and role stay, the wishlist grows at its end, and [isFirstLogin] does
    not come back to true. *)
Definition user_extends (u u' : User.t) : Prop :=
  User._id u' = User._id u /\ User.name u' = User.name u
  /\ User.email u' = User.email u /\ User.password u' = User.password u
  /\ User.role u' = User.role u
  /\ (exists more, User.wishlist u' = User.wishlist u ++ more)
  /\ (User.isFirstLogin u = false -> User.isFirstLogin u' = false).

(** What may become of a stored order: all but the status stays. *)
Definition order_kept (o o' : Order.t) : Prop :=
  Order._id o' = Order._id o /\ Order.userId o' = Order.userId o
  /\ Order.products o' = Order.products o
  /\ Order.totalAmount o' = Order.totalAmount o
  /\ Order.createdAt o' = Order.createdAt o.

(** What one request can do to the Users collection, with what it stores. *)
Inductive users_change (s s' : Db) : Prop :=
| uc_same :
    Users s' = Users s -> users_change s s'
| uc_added (u : User.t) :
    Users s' = Users s ++ [u] ->
    find (fun v => User.email v =? User.email u) (Users s) = None ->
    In (User.role u) User.role_enum ->
    users_change s s'
| uc_updated (id : ObjectId) (f : User.t -> User.t) :
    Users s' = updateById User._id id f (Users s) ->
    (forall u, user_extends u (f u)) ->
    users_change s s'.

(** What one request can do to the Products collection. *)
Inductive products_step (s s' : Db) : Prop :=
| ps_same :
    Products s' = Products s -> nextId s <= nextId s' -> products_step s s'
| ps_created (p : Product.t) :
    Products s' = Products s ++ [p] -> Product._id p = nextId s ->
    nextId s' = S (nextId s) ->
    In (Product.category p) Product.category_enum ->
    products_step s s'
| ps_deleted (id : ObjectId) :
    Products s' = deleteById Product._id id (Products s) -> nextId s' = nextId s ->
    products_step s s'.

(** What one request can do to the Orders collection. *)
Inductive orders_step (s s' : Db) : Prop :=
| os_same :
    Orders s' = Orders s -> orders_step s s'
| os_created (o : Order.t) :
    Orders s' = Orders s ++ [o] -> orders_step s s'
| os_status (id : ObjectId) (st : string) :
    Orders s' = updateById Order._id id (Order.set_status st) (Orders s) ->
    orders_step s s'.

(** Product identifiers are pairwise distinct and below the counter. *)
Definition wf_products (s : Db) : Prop :=
  NoDup (map Product._id (Products s))
  /\ Forall (fun i => i < nextId s) (map Product._id (Products s)).

(** The snapshot that POST /orders takes of one line. *)
Definition snapshot_of (castObjectId : string -> option ObjectId) (s : Db)
  (line : OrderLine.t) (item : Item.t) : Prop :=
  exists product,
    resolve castObjectId (OrderLine.productId line) (Products s) = Some product
    /\ item = Item.mk (Product._id product) (Product.name product)
                      (Product.price product) (OrderLine.quantity line).

(** No character of [s] is a dash. *)
Fixpoint dashless (s : string) : Prop :=
  match s with
  | EmptyString => True
  | String c s' => c <> "-"%char /\ dashless s'
  end.

(** The counts of an analytics response. *)
Definition totalUsers (r : Response) : option nat :=
  match body r with JAnalytics n _ _ _ _ => Some n | _ => None end.
Definition totalAdmins (r : Response) : option nat :=
  match body r with JAnalytics _ n _ _ _ => Some n | _ => None end.
Definition totalOrders (r : Response) : option nat :=
  match body r with JAnalytics _ _ _ n _ => Some n | _ => None end.

(** ** A shop with some history *)

Module Shop.
Definition serve :=
  serve Sample.hash Sample.compare Sample.Number_of_string Sample.Number_toExponential
        Sample.castObjectId Sample.ObjectId_toString.

Definition tee : ProductBody.t :=
  ProductBody.mk (VStr "Tee") (VNum 499) (VStr "men") (VStr "http://x/y.png") None.

Definition cap_upload : ProductBody.t :=
  ProductBody.mk (VStr "Cap") (VStr "150") (VStr "kids") (VStr "http://x/cap.png")
                 (Some "1700000000000-cap.png").

(** Alice signs up (user 0), two products are added (1 and 2), Alice logs
    in, wishes the tee and orders two of them (order 3). *)
Definition history : list Request :=
  [POST_signup "salt" Sample.signup_alice;
   POST_products tee;
   POST_products cap_upload;
   POST_login (LoginBody.mk "alice@example.com" "secret" (Some "user"));
   POST_wishlist (WishlistBody.mk "alice@example.com" "000000000000000000000001");
   POST_orders 1700000000001
     (OrderBody.mk "alice@example.com"
        [OrderLine.mk "000000000000000000000001" 2%Z] 998%Z)].

Definition db : Db := snd (serve history empty_db).

Definition alice : User.t :=
  User.mk 0 "Alice" "alice@example.com" "secret" "user" false [1].

Definition signup_root : SignupBody.t :=
  SignupBody.mk "Mallory" "mallory@example.com" "pw" "pw" (Some "root").

Definition scarf : ProductBody.t :=
  ProductBody.mk (VStr "Scarf") (VNum 250) (VStr "women") (VStr "http://x/scarf.png") None.

Definition order_both : OrderBody.t :=
  OrderBody.mk "alice@example.com"
    [OrderLine.mk "000000000000000000000002" 1%Z;
     OrderLine.mk "000000000000000000000001" 3%Z] 5%Z.

(** The documents of [db] and those that [scarf] and [order_both] store. *)
Definition stored_cap : Product.t :=
  Product.mk 2 (Some "Cap") (Some 150%Z) (Some "/uploads/1700000000000-cap.png") "kids".

Definition stored_order : Order.t :=
  Order.mk 3 0 [Item.mk 1 (Some "Tee") (Some 499%Z) 2%Z] 998%Z "Pending" 1700000000001%Z.

Definition stored_scarf : Product.t :=
  Product.mk 4 (Some "Scarf") (Some 250%Z) (Some "http://x/scarf.png") "women".

Definition stored_order_both : Order.t :=
  Order.mk 4 0 [Item.mk 2 (Some "Cap") (Some 150%Z) 1%Z;
                Item.mk 1 (Some "Tee") (Some 499%Z) 3%Z] 5%Z "Pending" 5%Z.

Definition no_image : ProductBody.t :=
  ProductBody.mk (VStr "Tee") (VNum 499) (VStr "men") (VStr "") None.

Definition unisex : ProductBody.t :=
  ProductBody.mk (VStr "Tee") (VNum 499) (VStr "unisex") (VStr "http://x/y.png") None.

Definition order_bob : OrderBody.t :=
  OrderBody.mk "bob@example.com" [OrderLine.mk "000000000000000000000007" 1%Z] 1%Z.
End Shop.

(** * Properties of the routes *)

(** ** Lists of documents *)

Lemma strict_neq_true (a b : string) : a <> b -> strict_neq a b = true.
Proof.
  intros H. unfold strict_neq. destruct (String.eqb_spec a b); [contradiction | reflexivity].
Qed.

Lemma db_eta (s : Db) : mkDb (Users s) (Products s) (Orders s) (nextId s) = s.
Proof. destruct s; reflexivity. Qed.

Section ById.
Context {A : Type} (get_id : A -> ObjectId).

Lemma deleteById_absent (id : ObjectId) (l : list A) :
  find (fun x => Nat.eqb (get_id x) id) l = None -> deleteById get_id id l = l.
Proof.
  induction l as [|x l IH]; simpl; [reflexivity|].
  destruct (Nat.eqb (get_id x) id); [discriminate|].
  intros H. now rewrite IH.
Qed.

(** With identifiers that are pairwise distinct, updating the first
    document with an identifier updates every document with it. *)
Lemma updateById_map (id : ObjectId) (f : A -> A) (l : list A) :
  NoDup (map get_id l) ->
  updateById get_id id f l = map (fun x => if Nat.eqb (get_id x) id then f x else x) l.
Proof.
  induction l as [|x l IH]; simpl; [reflexivity|].
  intros H. inversion H as [|? ? Hx Hl]; subst.
  destruct (Nat.eqb_spec (get_id x) id) as [E|E].
  - f_equal. rewrite <- (map_id l) at 1. apply map_ext_in.
    intros y Hy. destruct (Nat.eqb_spec (get_id y) id) as [E'|E']; [|reflexivity].
    exfalso. apply Hx. rewrite E, <- E'. now apply in_map.
  - now rewrite IH.
Qed.

Lemma updateById_ids (id : ObjectId) (f : A -> A) (l : list A) :
  (forall x, get_id (f x) = get_id x) ->
  map get_id (updateById get_id id f l) = map get_id l.
Proof.
  intros Hf. induction l as [|x l IH]; simpl; [reflexivity|].
  destruct (Nat.eqb (get_id x) id); simpl; [now rewrite Hf | now rewrite IH].
Qed.

Lemma NoDup_map_inj (l : list A) (a b : A) :
  NoDup (map get_id l) -> In a l -> In b l -> get_id a = get_id b -> a = b.
Proof.
  induction l as [|x l IH]; simpl; [contradiction|].
  intros H Ha Hb E. inversion H as [|? ? Hx Hl]; subst.
  destruct Ha as [<-|Ha], Hb as [<-|Hb]; auto.
  - exfalso. apply Hx. rewrite E. now apply in_map.
  - exfalso. apply Hx. rewrite <- E. now apply in_map.
Qed.
End ById.

Lemma filter_all {A} (l : list A) : filter (fun _ => true) l = l.
Proof. induction l as [|x l IH]; simpl; [reflexivity | now rewrite IH]. Qed.

Lemma find_none_existsb {A} (p : A -> bool) (l : list A) :
  find p l = None -> existsb p l = false.
Proof.
  induction l as [|x l IH]; simpl; [reflexivity|].
  destruct (p x); [discriminate | exact IH].
Qed.

Lemma fold_left_revenue (l : list Order.t) (a : Z) :
  fold_left (fun acc o => (acc + Order.totalAmount o)%Z) l a = (a + revenue_sum l)%Z.
Proof.
  revert a. induction l as [|o l IH]; intros a; simpl; [lia|].
  rewrite IH. lia.
Qed.

Lemma js_or_zero (n : Z) : js_or (VNum n) (VNum 0) = VNum n.
Proof.
  unfold js_or; simpl. destruct (Z.eqb_spec n 0); [now subst | reflexivity].
Qed.

(** C7: in every state of the database GET /analytics answers 200 with the
    four counts and with [totalRevenue] equal to the sum of [totalAmount]
    over all the orders in the database, and leaves the database as it was;
    when the Orders collection is empty, [totalRevenue] is 0. *)
Theorem getAnalytics_totalRevenue :
  (forall s : Db,
      getAnalytics s =
        (res_json (JAnalytics (length (Users s))
                     (length (filter (fun u => User.role u =? "admin") (Users s)))
                     (length (Products s))
                     (length (Orders s))
                     (VNum (revenue_sum (Orders s)))), s))
  /\ (forall (us : list User.t) (ps : list Product.t) (n : ObjectId),
         totalRevenue (fst (getAnalytics (mkDb us ps [] n))) = Some (VNum 0)).
Proof.
  split; [|reflexivity].
  intros s.
  unfold getAnalytics, try_catch, bind, countDocuments, Order_aggregate_revenue, gets, ret.
  rewrite !filter_all. do 3 f_equal.
  destruct (Orders s) as [|o l] eqn:E.
  - reflexivity.
  - rewrite js_or_zero, fold_left_revenue. reflexivity.
Qed.

(** ** Products *)

(** C8, as the route behaves: DELETE /products/:id for a well-formed
    identifier that no product has is answered 200 [{ success: true }] and
    leaves the database, and so the Products collection, as it was; for a
    string that is no well-formed ObjectId the query rejects, the route
    answers 500 "Delete failed", and the database is left as it was too. *)
Theorem deleteProduct_absent (castObjectId : string -> option ObjectId) (s : Db) :
  (forall (id : string) (id' : ObjectId),
      castObjectId id = Some id' ->
      find (fun p => Nat.eqb (Product._id p) id') (Products s) = None ->
      deleteProduct castObjectId id s = (res_json JSuccess, s))
  /\ (forall id : string,
         castObjectId id = None ->
         deleteProduct castObjectId id s
         = (res_status 500 (JFail (Some "Delete failed")), s)).
Proof.
  split.
  - intros id id' Hcast H.
    unfold deleteProduct, try_catch, bind, Product_findByIdAndDelete, bind, cast_id,
      gets, modify, ret, set_Products.
    rewrite Hcast. cbn [Products].
    rewrite (deleteById_absent Product._id id' _ H), db_eta. reflexivity.
  - intros id Hcast.
    unfold deleteProduct, try_catch, bind, Product_findByIdAndDelete, bind, cast_id.
    now rewrite Hcast.
Qed.

(** C9: POST /products tests its fields for truthiness: a body whose
    [price] is the number 0, or whose [name] is the empty string, is answered
    400 "All fields required" and nothing is stored, whatever the other
    fields and the uploaded file are. *)
Theorem createProduct_falsy_field
  (Number_of_string : string -> option Z) (Number_toExponential : Z -> string)
  (req : ProductBody.t) (s : Db) :
  ProductBody.price req = VNum 0 \/ ProductBody.name req = VStr "" ->
  createProduct Number_of_string Number_toExponential req s
  = (res_status 400 (JFail (Some "All fields required")), s).
Proof.
  intros [H|H]; unfold createProduct, try_catch; rewrite H; simpl.
  - now rewrite orb_true_r.
  - reflexivity.
Qed.

(** ** Signup *)

(** C3: POST /signup with [password] different from [confirm] is answered
    400 and the database, and so the Users collection, is left as it was,
    whether or not a user with the email exists. *)
Theorem signup_password_mismatch
  (bcrypt_hash : string -> string -> string) (salt : string)
  (req : SignupBody.t) (s : Db) :
  SignupBody.password req <> SignupBody.confirm req ->
  signup bcrypt_hash salt req s
  = (res_status 400 (JFail (Some "Passwords do not match")), s).
Proof.
  intros H. unfold signup, try_catch.
  now rewrite (strict_neq_true _ _ H).
Qed.

(** C10: a POST /signup that carries no [role], whose [password] equals
    [confirm] and whose email no stored user has, is answered 200 with role
    "user", and the Users collection gains exactly one document, whose role
    is the schema default "user". *)
Theorem signup_default_role
  (bcrypt_hash : string -> string -> string) (salt : string)
  (req : SignupBody.t) (s : Db) :
  SignupBody.role req = None ->
  SignupBody.password req = SignupBody.confirm req ->
  find (fun u => User.email u =? SignupBody.email req) (Users s) = None ->
  fst (signup bcrypt_hash salt req s) = res_json (JRole "user")
  /\ Users (snd (signup bcrypt_hash salt req s))
     = Users s ++ [User.mk (nextId s) (SignupBody.name req) (SignupBody.email req)
                     (bcrypt_hash salt (SignupBody.password req)) "user" true []].
Proof.
  intros Hrole Hpw Hfind.
  unfold signup, try_catch, bind, User_findOne, gets.
  unfold strict_neq. rewrite Hpw, String.eqb_refl. simpl.
  rewrite Hfind. unfold User_new, bind, new_ObjectId, ret. rewrite Hrole.
  unfold User_insert. simpl.
  unfold bind, gets. simpl.
  rewrite (find_none_existsb _ _ Hfind). simpl.
  split; reflexivity.
Qed.

(** ** Orders *)

Section Orders.
Variable castObjectId : string -> option ObjectId.

Lemma resolveLine_reads (p : OrderLine.t) (s : Db) : snd (resolveLine castObjectId p s) = s.
Proof.
  unfold resolveLine, bind, Product_findById, bind, cast_id, gets, ret, throw.
  destruct (castObjectId (OrderLine.productId p)) as [id|]; [|reflexivity].
  destruct (find (fun q => Nat.eqb (Product._id q) id) (Products s)); reflexivity.
Qed.

Lemma Promise_all_resolve_reads (ps : list OrderLine.t) (s : Db) :
  snd (Promise_all (map (resolveLine castObjectId) ps) s) = s.
Proof.
  induction ps as [|p ps IH]; simpl; [reflexivity|].
  unfold bind at 1. pose proof (resolveLine_reads p s) as Hp.
  destruct (resolveLine castObjectId p s) as [[x|e] s1]; simpl in Hp; subst s1; [|reflexivity].
  unfold bind. destruct (Promise_all (map (resolveLine castObjectId) ps) s) as [[xs|e] s2];
    simpl in IH; subst s2; reflexivity.
Qed.

Lemma Promise_all_resolve_rejects (ps : list OrderLine.t) (s : Db) :
  (exists p, In p ps
             /\ resolve castObjectId (OrderLine.productId p) (Products s) = None) ->
  exists e, Promise_all (map (resolveLine castObjectId) ps) s = (Throw e, s).
Proof.
  induction ps as [|p ps IH]; intros [q [Hin Hq]]; [contradiction|].
  simpl. unfold bind at 1.
  destruct (resolveLine castObjectId p s) as [[x|e] s1] eqn:Ep.
  - pose proof (resolveLine_reads p s) as Hp. rewrite Ep in Hp. simpl in Hp. subst s1.
    destruct Hin as [->|Hin].
    + unfold resolveLine, bind, Product_findById, bind, cast_id, gets, ret, throw in Ep.
      unfold resolve in Hq.
      destruct (castObjectId (OrderLine.productId q)) as [id|]; [|discriminate].
      rewrite Hq in Ep. discriminate.
    + destruct (IH (ex_intro _ q (conj Hin Hq))) as [e He].
      exists e. unfold bind. now rewrite He.
  - pose proof (resolveLine_reads p s) as Hp. rewrite Ep in Hp. simpl in Hp. subst s1.
    now exists e.
Qed.

(** C1, as the route behaves: POST /orders for a stored user with a line
    whose product is not in the database is answered 500 "Failed to create
    order"; the rejection of the lookup is caught by the route's [catch]. *)
Theorem createOrder_missing_product_500
  (now : Z) (req : OrderBody.t) (s : Db) (user : User.t) :
  find (fun u => User.email u =? OrderBody.email req) (Users s) = Some user ->
  unresolved castObjectId req s ->
  createOrder castObjectId now req s
  = (res_status 500 (JFail (Some "Failed to create order")), s).
Proof.
  intros Hu Hp. unfold createOrder, try_catch, bind at 1, User_findOne, gets.
  rewrite Hu. unfold bind at 1.
  destruct (Promise_all_resolve_rejects _ s Hp) as [e ->]. reflexivity.
Qed.

(** C2: POST /orders with a line whose product is not in the database
    stores nothing: the Orders collection, and the whole database, is left
    as it was, whether or not the user exists. *)
Theorem createOrder_missing_product_no_order
  (now : Z) (req : OrderBody.t) (s : Db) :
  unresolved castObjectId req s ->
  Orders (snd (createOrder castObjectId now req s)) = Orders s
  /\ snd (createOrder castObjectId now req s) = s.
Proof.
  intros Hp.
  assert (E : snd (createOrder castObjectId now req s) = s).
  { unfold createOrder, try_catch, bind at 1, User_findOne, gets.
    destruct (find _ (Users s)) as [user|]; [|reflexivity].
    unfold bind at 1.
    destruct (Promise_all_resolve_rejects _ s Hp) as [e ->]. reflexivity. }
  now rewrite E.
Qed.

End Orders.

(** ** Login *)

Lemma append_empty_r (s : string) : (s ++ "")%string = s.
Proof. induction s as [|c s IH]; simpl; [reflexivity | now rewrite IH]. Qed.

(** C4: POST /login for a stored user, with a password that bcrypt accepts
    against the stored hash and a requested role other than the stored one,
    is answered 403 with a message that ends in the stored role, and the
    database, and so [isFirstLogin], is left as it was. *)
Theorem login_role_mismatch
  (bcrypt_compare : string -> string -> bool)
  (req : LoginBody.t) (s : Db) (user : User.t) :
  find (fun u => User.email u =? LoginBody.email req) (Users s) = Some user ->
  bcrypt_compare (LoginBody.password req) (User.password user) = true ->
  LoginBody.role req <> Some (User.role user) ->
  login bcrypt_compare req s
  = (res_status 403
       (JFail (Some ("Incorrect role. Registered as " ++ User.role user)%string)), s)
  /\ (exists m, message_of (fst (login bcrypt_compare req s)) = Some m
                /\ occurs_in (User.role user) m).
Proof.
  intros Hu Hpw Hrole.
  assert (E : login bcrypt_compare req s
              = (res_status 403
                   (JFail (Some ("Incorrect role. Registered as " ++ User.role user)%string)), s)).
  { unfold login, try_catch, bind, User_findOne, gets.
    rewrite Hu, Hpw. simpl.
    destruct (LoginBody.role req) as [r|]; [|reflexivity].
    rewrite strict_neq_true; [reflexivity|].
    intros E. apply Hrole. now rewrite E. }
  split; [exact E|].
  rewrite E. eexists. split; [reflexivity|].
  exists "Incorrect role. Registered as ", "". now rewrite append_empty_r.
Qed.

(** ** Invariants of the reachable databases *)

Lemma find_app_some {A} (p : A -> bool) (l l' : list A) (x : A) :
  find p l = Some x -> find p (l ++ l') = Some x.
Proof.
  induction l as [|y l IH]; simpl; [discriminate|].
  destruct (p y); auto.
Qed.

Lemma find_app_none {A} (p : A -> bool) (l l' : list A) :
  find p l = None -> find p (l ++ l') = find p l'.
Proof.
  induction l as [|y l IH]; simpl; [reflexivity|].
  destruct (p y); [discriminate | auto].
Qed.

Lemma find_map_preserved {A} (p : A -> bool) (g : A -> A) (l : list A) :
  (forall x, p (g x) = p x) -> find p (map g l) = option_map g (find p l).
Proof.
  intros Hg. induction l as [|y l IH]; simpl; [reflexivity|].
  rewrite Hg. destruct (p y); [reflexivity | exact IH].
Qed.

Lemma Forall_updateById {A} (P : A -> Prop) (get_id : A -> ObjectId) id f (l : list A) :
  (forall x, P x -> P (f x)) -> Forall P l -> Forall P (updateById get_id id f l).
Proof.
  intros Hf. induction 1 as [|x l Hx Hl IH]; simpl; [constructor|].
  destruct (Nat.eqb (get_id x) id); constructor; auto.
Qed.



Lemma NoDup_push (x : ObjectId) (l : list ObjectId) :
  NoDup l -> ~ In x l -> NoDup (l ++ [x]).
Proof.
  intros Hl Hx. apply NoDup_app; [exact Hl | repeat constructor; simpl; tauto |].
  intros y Hy [<-|[]]. contradiction.
Qed.

Section Invariants.
Variable bcrypt_hash : string -> string -> string.
Variable bcrypt_compare : string -> string -> bool.
Variable Number_of_string : string -> option Z.
Variable Number_toExponential : Z -> string.
Variable castObjectId : string -> option ObjectId.
Variable ObjectId_toString : ObjectId -> string.

Local Abbreviation step := (handle bcrypt_hash bcrypt_compare Number_of_string Number_toExponential castObjectId ObjectId_toString).
Local Abbreviation run := (serve bcrypt_hash bcrypt_compare Number_of_string Number_toExponential castObjectId ObjectId_toString).
Local Abbreviation reach := (reachable bcrypt_hash bcrypt_compare Number_of_string Number_toExponential castObjectId ObjectId_toString).

Lemma find_In {A} (p : A -> bool) (l : list A) (x : A) :
  find p l = Some x -> In x l /\ p x = true.
Proof. apply find_some. Qed.

(** Unfolds the monadic plumbing of a route and leaves its tests. *)
Ltac route :=
  cbv [signup login addToWishlist createProduct createOrder
       try_catch bind gets ret throw modify cast_id
       User_findOne User_new User_insert User_save new_ObjectId
       Product_new_save Order_new Order_insert
       set_Users set_Products set_Orders].

Local Abbreviation users_step := (users_step castObjectId ObjectId_toString).

Ltac unchanged := apply us_same; cbn; auto.

Lemma signup_users_step salt req s :
  users_step (POST_signup salt req) (fst (signup bcrypt_hash salt req s))
             s (snd (signup bcrypt_hash salt req s)).
Proof.
  route.
  destruct (strict_neq _ _); [unchanged|].
  destruct (find _ (Users s)) as [v|] eqn:Hfind; [unchanged|].
  destruct (negb (existsb _ User.role_enum)); [unchanged|].
  cbn [User.email Users]. rewrite (find_none_existsb _ _ Hfind).
  eapply us_signup; cbn; try reflexivity. exact Hfind.
Qed.

Lemma login_users_step req s :
  users_step (POST_login req) (fst (login bcrypt_compare req s))
             s (snd (login bcrypt_compare req s)).
Proof.
  route.
  destruct (find _ (Users s)) as [u|] eqn:Hfind; [|unchanged].
  destruct (bcrypt_compare _ _); cbn [negb]; [|unchanged].
  destruct (match LoginBody.role req with
            | Some r => strict_neq (User.role u) r
            | None => true
            end); [unchanged|].
  apply (us_login _ _ _ _ _ _ u req); try reflexivity; try exact Hfind;
    destruct (User.isFirstLogin u); reflexivity.
Qed.

Lemma addToWishlist_users_step req s :
  users_step (POST_wishlist req) (fst (addToWishlist castObjectId ObjectId_toString req s)) s (snd (addToWishlist castObjectId ObjectId_toString req s)).
Proof.
  route.
  destruct (find _ (Users s)) as [u|] eqn:Hfind; [|unchanged].
  destruct (includes _ _ _) eqn:Hinc; cbn [negb]; [unchanged|].
  destruct (castObjectId (WishlistBody.productId req)) as [p|] eqn:Hcast; [|unchanged].
  apply (us_wishlist _ _ _ _ _ _ u p req); try reflexivity; auto.
  now apply find_In in Hfind.
Qed.

Lemma createProduct_users_step req s :
  users_step (POST_products req) (fst (createProduct Number_of_string Number_toExponential req s))
             s (snd (createProduct Number_of_string Number_toExponential req s)).
Proof.
  route.
  destruct (_ || _); [unchanged|].
  destruct (match ProductBody.file req with
            | Some filename => Some (VStr ("/uploads/" ++ filename))
            | None => if truthy (ProductBody.imageUrl req)
                      then Some (ProductBody.imageUrl req)
                      else None
            end) as [image|]; [|unchanged].
  destruct (castNumber _ _ _) as [price'|e]; [|unchanged].
  destruct (castString Number_toExponential (ProductBody.category req)) as [c|]; [|unchanged].
  destruct (negb _); unchanged.
Qed.

Lemma createOrder_users_step now req s :
  users_step (POST_orders now req) (fst (createOrder castObjectId now req s))
             s (snd (createOrder castObjectId now req s)).
Proof.
  route.
  destruct (find _ (Users s)) as [u|]; [|unchanged].
  pose proof (Promise_all_resolve_reads castObjectId (OrderBody.products req) s) as Hr.
  destruct (Promise_all _ s) as [[items|e] s1]; simpl in Hr; subst s1; unchanged.
Qed.

Lemma handle_users_step r s :
  users_step r (fst (step r s)) s (snd (step r s)).
Proof.
  destruct r; cbn [handle].
  - apply signup_users_step.
  - apply login_users_step.
  - apply addToWishlist_users_step.
  - unchanged.
  - apply createProduct_users_step.
  - cbv [deleteProduct try_catch bind Product_findByIdAndDelete cast_id gets modify ret
         throw set_Products].
    destruct (castObjectId id); unchanged.
  - apply createOrder_users_step.
  - cbv [updateOrderStatus try_catch bind Order_findByIdAndUpdate cast_id gets modify ret
         throw set_Orders].
    destruct (castObjectId id); unchanged.
  - unchanged.
Qed.

(** *** Identifiers stay distinct *)

Lemma users_step_wf r resp s s' : users_step r resp s s' -> wf s -> wf s'.
Proof.
  intros Hstep [Hnd Hlt]. destruct Hstep as [HU Hn _ | u HU Hid Hn _ _ _ _
                                            | u req _ _ _ HU Hn | u p req _ _ _ _ HU Hn _].
  - split; rewrite HU; [exact Hnd|].
    eapply Forall_impl; [|exact Hlt]. simpl. lia.
  - split; rewrite HU, map_app; simpl; rewrite Hid.
    + apply NoDup_push; [exact Hnd|].
      intros Hin. rewrite Forall_forall in Hlt. specialize (Hlt _ Hin). lia.
    + apply Forall_app. split.
      * eapply Forall_impl; [|exact Hlt]. simpl. lia.
      * repeat constructor. lia.
  - assert (E : map User._id (Users s') = map User._id (Users s)).
    { rewrite HU. destruct (User.isFirstLogin u); [|reflexivity].
      now apply updateById_ids. }
    split; rewrite E, ?Hn; assumption.
  - assert (E : map User._id (Users s') = map User._id (Users s)).
    { rewrite HU. now apply updateById_ids. }
    split; rewrite E, ?Hn; assumption.
Qed.

Lemma wf_empty : wf empty_db.
Proof. split; simpl; constructor. Qed.

Lemma reachable_wf s : reach s -> wf s.
Proof.
  induction 1 as [|s r _ IH]; [apply wf_empty|].
  exact (users_step_wf _ _ _ _ (handle_users_step r s) IH).
Qed.

(** *** Wishlists hold no identifier twice *)




(** *** The wishlist route *)

(** What POST /wishlist does for a stored user. *)
Lemma addToWishlist_found req s user :
  find (fun u => User.email u =? WishlistBody.email req) (Users s) = Some user ->
  addToWishlist castObjectId ObjectId_toString req s
  = if includes ObjectId_toString (WishlistBody.productId req) (User.wishlist user)
    then (res_json JSuccess, s)
    else match castObjectId (WishlistBody.productId req) with
         | Some p =>
             (res_json JSuccess,
              set_Users (updateById User._id (User._id user) (User.wishlist_push p)) s)
         | None => (res_status 500 (JFail None), s)
         end.
Proof.
  intros Hfind. route. rewrite Hfind.
  destruct (includes _ _ _); [reflexivity|]. cbn [negb].
  destruct (castObjectId _); reflexivity.
Qed.

(** After a push on the user found by email, the same search finds the
    user with the longer wishlist. *)
Lemma find_after_push e p s user :
  wf s ->
  find (fun u => User.email u =? e) (Users s) = Some user ->
  find (fun u => User.email u =? e)
       (updateById User._id (User._id user) (User.wishlist_push p) (Users s))
  = Some (User.wishlist_push p user).
Proof.
  intros [Hnd _] Hfind.
  rewrite (updateById_map User._id _ _ _ Hnd), find_map_preserved, Hfind.
  - simpl. now rewrite Nat.eqb_refl.
  - intros x. now destruct (Nat.eqb _ _).
Qed.

(** *** The first-login flag *)

(** A request leaves the stored flag of [e] as it was, except a successful
    login of [e], which answers the stored flag and leaves it false. *)
Lemma users_step_flag r resp s s' e b :
  users_step r resp s s' -> wf s -> stored_isFirstLogin e s = Some b ->
  match login_answer r resp with
  | Some (e', b') =>
      if e' =? e then b' = b /\ stored_isFirstLogin e s' = Some false
      else stored_isFirstLogin e s' = Some b
  | None => stored_isFirstLogin e s' = Some b
  end.
Proof.
  unfold stored_isFirstLogin.
  intros Hstep [Hnd _] Hst.
  destruct (find _ (Users s)) as [v|] eqn:Hv; [|discriminate].
  simpl in Hst. injection Hst as <-.
  destruct Hstep as [HU _ Hans | u HU _ _ _ _ _ Hans
                    | u req -> Hu -> HU _ | u p req' _ _ _ _ HU _ Hans].
  - rewrite Hans, HU, Hv. reflexivity.
  - rewrite Hans, HU, (find_app_some _ _ _ _ Hv). reflexivity.
  - cbn [login_answer status body res_json].
    destruct (String.eqb_spec (LoginBody.email req) e) as [E|E].
    + subst e. rewrite Hu in Hv. injection Hv as <-.
      split; [reflexivity|]. rewrite HU.
      destruct (User.isFirstLogin u) eqn:Hflag.
      * rewrite (updateById_map User._id _ _ _ Hnd), find_map_preserved, Hu.
        -- simpl. now rewrite Nat.eqb_refl.
        -- intros x. now destruct (Nat.eqb _ _).
      * rewrite Hu. simpl. now rewrite Hflag.
    + rewrite HU. destruct (User.isFirstLogin u); [|now rewrite Hv].
      rewrite (updateById_map User._id _ _ _ Hnd), find_map_preserved, Hv.
      * simpl. destruct (Nat.eqb_spec (User._id v) (User._id u)) as [Eid|Eid];
          [|reflexivity].
        exfalso. apply E.
        apply find_some in Hu as [Hu Eu], Hv as [Hv Ev].
        apply String.eqb_eq in Eu, Ev.
        assert (v = u) by (eapply NoDup_map_inj; eauto). subst v. congruence.
      * intros x. now destruct (Nat.eqb _ _).
  - rewrite Hans, HU, (updateById_map User._id _ _ _ Hnd), find_map_preserved, Hv.
    + simpl. now destruct (Nat.eqb _ _).
    + intros x. now destruct (Nat.eqb _ _).
Qed.

Lemma serve_cons r rs s :
  run (r :: rs) s
  = (fst (step r s) :: fst (run rs (snd (step r s))),
     snd (run rs (snd (step r s)))).
Proof.
  cbn [serve]. destruct (step r s) as [resp s1]. cbn [fst snd].
  destruct (run rs s1); reflexivity.
Qed.

Lemma serve_answers e rs :
  forall s b, wf s -> stored_isFirstLogin e s = Some b ->
  let answers := isNewUser_answers e rs (fst (run rs s)) in
  if b then true_once answers = true else forallb negb answers = true.
Proof.
  induction rs as [|r rs IH]; intros s b Hwf Hst; cbn zeta.
  - now destruct b.
  - rewrite serve_cons. cbn [fst isNewUser_answers].
    pose proof (handle_users_step r s) as Hstep.
    pose proof (users_step_wf _ _ _ _ Hstep Hwf) as Hwf'.
    pose proof (users_step_flag _ _ _ _ e b Hstep Hwf Hst) as Hflag.
    destruct (login_answer r (fst (step r s))) as [[e' b']|].
    + destruct (e' =? e).
      * destruct Hflag as [-> Hst'].
        pose proof (IH _ false Hwf' Hst') as Hrest. cbn zeta in Hrest.
        destruct b; cbn [true_once forallb negb andb]; exact Hrest.
      * exact (IH _ b Hwf' Hflag).
    + exact (IH _ b Hwf' Hflag).
Qed.

(** A successful login answers the stored flag and leaves it false. *)
Lemma login_reflects req s role b :
  wf s ->
  fst (login bcrypt_compare req s) = res_json (JLogin role b) ->
  stored_isFirstLogin (LoginBody.email req) s = Some b
  /\ stored_isFirstLogin (LoginBody.email req) (snd (login bcrypt_compare req s))
     = Some false.
Proof.
  intros Hwf Hresp.
  pose proof (login_users_step req s) as Hstep.
  assert (Hst : stored_isFirstLogin (LoginBody.email req) s = Some b).
  { destruct Hstep as [_ _ Hans | u _ _ _ _ _ _ Hans
                      | u req' Hr Hu Hr' _ _ | u p req' _ _ _ _ _ _ Hans];
      try (rewrite Hresp in Hans; discriminate).
    injection Hr as <-. rewrite Hresp in Hr'. injection Hr' as _ ->.
    unfold stored_isFirstLogin. now rewrite Hu. }
  split; [exact Hst|].
  pose proof (users_step_flag _ _ _ _ _ b Hstep Hwf Hst) as Hflag.
  rewrite Hresp in Hflag. cbn [login_answer status body res_json] in Hflag.
  rewrite String.eqb_refl in Hflag. apply Hflag.
Qed.

(** What a signup answered 200 has stored. *)
Lemma signup_success salt req s role :
  fst (signup bcrypt_hash salt req s) = res_json (JRole role) ->
  let u := User.mk (nextId s) (SignupBody.name req) (SignupBody.email req)
                   (bcrypt_hash salt (SignupBody.password req)) role true [] in
  find (fun v => User.email v =? SignupBody.email req) (Users s) = None
  /\ Users (snd (signup bcrypt_hash salt req s)) = Users s ++ [u].
Proof.
  route.
  destruct (strict_neq _ _); [discriminate|].
  destruct (find _ (Users s)) as [v|] eqn:Hfind; [discriminate|].
  destruct (negb (existsb _ User.role_enum)); [discriminate|].
  cbn [User.email Users]. rewrite (find_none_existsb _ _ Hfind).
  cbn. intros H. injection H as <-. split; reflexivity.
Qed.

Lemma login_found req s user :
  find (fun u => User.email u =? LoginBody.email req) (Users s) = Some user ->
  bcrypt_compare (LoginBody.password req) (User.password user) = true ->
  LoginBody.role req = Some (User.role user) ->
  fst (login bcrypt_compare req s)
  = res_json (JLogin (User.role user) (User.isFirstLogin user)).
Proof.
  intros Hfind Hpw Hrole. route. rewrite Hfind, Hpw, Hrole.
  unfold strict_neq. rewrite String.eqb_refl. cbn [negb].
  destruct (User.isFirstLogin user); reflexivity.
Qed.

End Invariants.

(** ** Wishlist *)


(** ** First login *)

(** C5: a user stored by a successful signup has [isFirstLogin] true; a
    login with the credentials of the signup is then answered 200 with
    [isNewUser] true and leaves the stored flag false; along every sequence
    of requests served after the signup, the successful logins of that email
    are answered [isNewUser] true the first time and false every later time;
    and every successful login, in every reachable database, is answered the
    flag that was stored when it arrived and leaves the stored flag false. *)
Theorem login_isNewUser_once
  (bcrypt_hash : string -> string -> string)
  (bcrypt_compare : string -> string -> bool)
  (Number_of_string : string -> option Z)
  (Number_toExponential : Z -> string)
  (castObjectId : string -> option ObjectId)
  (ObjectId_toString : ObjectId -> string)
  (salt : string) (sreq : SignupBody.t) (s : Db) (role : string) :
  (forall salt' p, bcrypt_compare p (bcrypt_hash salt' p) = true) ->
  reachable bcrypt_hash bcrypt_compare Number_of_string Number_toExponential castObjectId ObjectId_toString s ->
  fst (signup bcrypt_hash salt sreq s) = res_json (JRole role) ->
  let s1 := snd (signup bcrypt_hash salt sreq s) in
  let e := SignupBody.email sreq in
  stored_isFirstLogin e s1 = Some true
  /\ (let first := login bcrypt_compare
                     (LoginBody.mk e (SignupBody.password sreq) (Some role)) s1 in
      fst first = res_json (JLogin role true)
      /\ stored_isFirstLogin e (snd first) = Some false)
  /\ (forall rs : list Request,
         true_once (isNewUser_answers e rs
                      (fst (serve bcrypt_hash bcrypt_compare Number_of_string Number_toExponential castObjectId ObjectId_toString rs s1)))
         = true)
  /\ (forall (s' : Db) (req : LoginBody.t) (role' : string) (b : bool),
         reachable bcrypt_hash bcrypt_compare Number_of_string Number_toExponential castObjectId ObjectId_toString s' ->
         fst (login bcrypt_compare req s') = res_json (JLogin role' b) ->
         stored_isFirstLogin (LoginBody.email req) s' = Some b
         /\ stored_isFirstLogin (LoginBody.email req) (snd (login bcrypt_compare req s'))
            = Some false).
Proof.
  intros Hbcrypt Hreach Hresp s1 e.
  destruct (signup_success bcrypt_hash salt sreq s role Hresp) as [Hnone HU].
  assert (Hwf1 : wf s1).
  { apply (reachable_wf bcrypt_hash bcrypt_compare Number_of_string Number_toExponential castObjectId ObjectId_toString).
    exact (reachable_step _ _ _ _ _ _ s (POST_signup salt sreq) Hreach). }
  assert (Hfind1 : find (fun u => User.email u =? e) (Users s1)
                   = Some (User.mk (nextId s) (SignupBody.name sreq) e
                             (bcrypt_hash salt (SignupBody.password sreq)) role true [])).
  { subst s1. rewrite HU, (find_app_none _ _ _ Hnone). simpl.
    subst e. now rewrite String.eqb_refl. }
  assert (Hst1 : stored_isFirstLogin e s1 = Some true).
  { unfold stored_isFirstLogin. now rewrite Hfind1. }
  split; [exact Hst1|]. split; [|split].
  - cbn zeta.
    assert (Hfirst : fst (login bcrypt_compare
                            (LoginBody.mk e (SignupBody.password sreq) (Some role)) s1)
                     = res_json (JLogin role true)).
    { rewrite (login_found bcrypt_compare
                 (LoginBody.mk e (SignupBody.password sreq) (Some role)) s1 _ Hfind1);
        [reflexivity | apply Hbcrypt | reflexivity]. }
    split; [exact Hfirst|].
    exact (proj2 (login_reflects bcrypt_compare castObjectId ObjectId_toString _ s1 role true Hwf1 Hfirst)).
  - intros rs.
    exact (serve_answers bcrypt_hash bcrypt_compare Number_of_string Number_toExponential castObjectId ObjectId_toString e rs s1 true Hwf1 Hst1).
  - intros s' req role' b Hreach' Hlogin.
    apply (login_reflects bcrypt_compare castObjectId ObjectId_toString req s' role' b); [|exact Hlogin].
    exact (reachable_wf _ _ _ _ _ _ s' Hreach').
Qed.

(** * The routes on the sample data *)

(** C1 as the specification words it does not hold: Alice is stored, the
    second line of [Sample.order_ghost] names product 7, which is not in the
    database, and the route answers 500, not 404. *)
Lemma createOrder_missing_product_not_404 :
  find (fun u => User.email u =? OrderBody.email Sample.order_ghost) (Users Sample.db)
  = Some Sample.alice
  /\ unresolved Sample.castObjectId Sample.order_ghost Sample.db
  /\ fst (createOrder Sample.castObjectId 0 Sample.order_ghost Sample.db)
     = res_status 500 (JFail (Some "Failed to create order"))
  /\ status (fst (createOrder Sample.castObjectId 0 Sample.order_ghost Sample.db)) <> 404.
Proof.
  split; [reflexivity|]. split; [|split].
  - exists (OrderLine.mk "000000000000000000000007" 1%Z). split; [right; left; reflexivity | reflexivity].
  - reflexivity.
  - intros H. vm_compute in H. discriminate H.
Qed.

Lemma createOrder_missing_product_500_witness :
  createOrder Sample.castObjectId 0 Sample.order_ghost Sample.db
  = (res_status 500 (JFail (Some "Failed to create order")), Sample.db).
Proof.
  apply (createOrder_missing_product_500 Sample.castObjectId 0%Z Sample.order_ghost
           Sample.db Sample.alice).
  - reflexivity.
  - exists (OrderLine.mk "000000000000000000000007" 1%Z). split; [right; left; reflexivity | reflexivity].
Defined.

Lemma createOrder_missing_product_no_order_witness :
  Orders (snd (createOrder Sample.castObjectId 0 Sample.order_ghost Sample.db)) = Orders Sample.db
  /\ snd (createOrder Sample.castObjectId 0 Sample.order_ghost Sample.db) = Sample.db.
Proof.
  apply (createOrder_missing_product_no_order Sample.castObjectId 0%Z Sample.order_ghost
           Sample.db).
  exists (OrderLine.mk "000000000000000000000007" 1%Z). split; [right; left; reflexivity | reflexivity].
Defined.

Lemma signup_password_mismatch_witness :
  signup Sample.hash "salt" Sample.signup_typo Sample.db
  = (res_status 400 (JFail (Some "Passwords do not match")), Sample.db).
Proof.
  apply (signup_password_mismatch Sample.hash "salt" Sample.signup_typo Sample.db).
  simpl. discriminate.
Defined.

Lemma login_role_mismatch_witness :
  login Sample.compare Sample.login_as_admin Sample.db
  = (res_status 403 (JFail (Some "Incorrect role. Registered as user")), Sample.db)
  /\ (exists m, message_of (fst (login Sample.compare Sample.login_as_admin Sample.db)) = Some m
                /\ occurs_in "user" m).
Proof.
  apply (login_role_mismatch Sample.compare Sample.login_as_admin Sample.db Sample.alice).
  - reflexivity.
  - reflexivity.
  - simpl. discriminate.
Defined.

Lemma login_isNewUser_once_witness :
  let e := "alice@example.com" in
  let again := POST_login (LoginBody.mk e "secret" (Some "user")) in
  stored_isFirstLogin e Sample.after_signup = Some true
  /\ true_once
       (isNewUser_answers e [again; again; again]
          (fst (serve Sample.hash Sample.compare Sample.Number_of_string Sample.Number_toExponential Sample.castObjectId Sample.ObjectId_toString
                  [again; again; again] Sample.after_signup)))
     = true.
Proof.
  intros e again.
  destruct (login_isNewUser_once Sample.hash Sample.compare Sample.Number_of_string Sample.Number_toExponential Sample.castObjectId Sample.ObjectId_toString
              "salt" Sample.signup_alice empty_db "user")
    as [Hstored [_ [Htrace _]]].
  - intros salt' p. apply String.eqb_refl.
  - apply reachable_init.
  - reflexivity.
  - split; [exact Hstored | exact (Htrace [again; again; again])].
Defined.



(** C8 as the specification words it does not hold: no product of the
    sample database has the identifier "7", in any spelling, and DELETE
    /products/7 is answered 500 "Delete failed". *)
Lemma deleteProduct_malformed_id_500 :
  (forall p, In p (Products Sample.db) ->
             Sample.ObjectId_toString (Product._id p) <> "7")
  /\ resolve Sample.castObjectId "7" (Products Sample.db) = None
  /\ fst (deleteProduct Sample.castObjectId "7" Sample.db)
     = res_status 500 (JFail (Some "Delete failed"))
  /\ status (fst (deleteProduct Sample.castObjectId "7" Sample.db)) <> 200.
Proof.
  split; [|split; [reflexivity | split; [reflexivity |]]].
  - intros p [<-|[]] H. vm_compute in H. discriminate H.
  - intros H. vm_compute in H. discriminate H.
Qed.

Lemma deleteProduct_absent_witness :
  deleteProduct Sample.castObjectId "000000000000000000000007" Sample.db
  = (res_json JSuccess, Sample.db)
  /\ deleteProduct Sample.castObjectId "7" Sample.db
     = (res_status 500 (JFail (Some "Delete failed")), Sample.db).
Proof.
  destruct (deleteProduct_absent Sample.castObjectId Sample.db) as [Hok Hbad].
  split.
  - apply (Hok "000000000000000000000007" 7); reflexivity.
  - apply (Hbad "7"). reflexivity.
Defined.

Lemma createProduct_falsy_field_witness :
  createProduct Sample.Number_of_string Sample.Number_toExponential Sample.free_tee Sample.db
  = (res_status 400 (JFail (Some "All fields required")), Sample.db).
Proof.
  apply (createProduct_falsy_field Sample.Number_of_string Sample.Number_toExponential Sample.free_tee Sample.db).
  left. reflexivity.
Defined.

Lemma signup_default_role_witness :
  fst (signup Sample.hash "salt" Sample.signup_alice empty_db) = res_json (JRole "user")
  /\ Users (snd (signup Sample.hash "salt" Sample.signup_alice empty_db)) = [Sample.alice].
Proof.
  apply (signup_default_role Sample.hash "salt" Sample.signup_alice empty_db);
    reflexivity.
Defined.

(** * Further properties of the routes *)

(** Unfolds the monadic plumbing of a route and leaves its tests. *)
Ltac plumbing :=
  cbv [signup login addToWishlist createProduct createOrder deleteProduct
       updateOrderStatus getWishlist listProducts getAnalytics
       try_catch bind gets ret throw modify cast_id
       User_findOne User_findOne_populate User_new User_insert User_save new_ObjectId
       Product_findById Product_findByIdAndDelete Product_find Product_new_save
       Order_new Order_insert Order_findByIdAndUpdate
       set_Users set_Products set_Orders].

Lemma existsb_eqb_notin (x : string) (l : list string) :
  ~ In x l -> existsb (String.eqb x) l = false.
Proof.
  intros H. destruct (existsb (String.eqb x) l) eqn:E; [|reflexivity].
  apply existsb_exists in E as [y [Hy E]]. apply String.eqb_eq in E. now subst y.
Qed.

Lemma existsb_eqb_in (x : string) (l : list string) :
  existsb (String.eqb x) l = true -> In x l.
Proof.
  intros E. apply existsb_exists in E as [y [Hy E]]. apply String.eqb_eq in E. now subst y.
Qed.

(** ** Errors of the auth routes *)

(** X1: POST /signup with matching passwords and an email that a stored user
    already has is answered 409 "Email already exists" and leaves the
    database as it was; no password is hashed and nothing is stored. *)
Theorem signup_email_taken
  (bcrypt_hash : string -> string -> string) (salt : string)
  (req : SignupBody.t) (s : Db) (user : User.t) :
  SignupBody.password req = SignupBody.confirm req ->
  find (fun u => User.email u =? SignupBody.email req) (Users s) = Some user ->
  signup bcrypt_hash salt req s
  = (res_status 409 (JFail (Some "Email already exists")), s).
Proof.
  intros Hpw Hfind. plumbing.
  unfold strict_neq. rewrite Hpw, String.eqb_refl. cbn [negb]. now rewrite Hfind.
Qed.

(** X2: POST /signup with a [role] outside the schema's enum passes both
    checks of the route, fails the validation of [save()], and is answered
    500 "Server error"; the Users collection is left as it was. *)
Theorem signup_role_outside_enum
  (bcrypt_hash : string -> string -> string) (salt : string)
  (req : SignupBody.t) (s : Db) (r : string) :
  SignupBody.role req = Some r ->
  ~ In r User.role_enum ->
  SignupBody.password req = SignupBody.confirm req ->
  find (fun u => User.email u =? SignupBody.email req) (Users s) = None ->
  fst (signup bcrypt_hash salt req s) = res_status 500 (JFail (Some "Server error"))
  /\ Users (snd (signup bcrypt_hash salt req s)) = Users s.
Proof.
  intros Hrole Hnot Hpw Hfind. plumbing.
  unfold strict_neq. rewrite Hpw, String.eqb_refl. cbn [negb]. rewrite Hfind, Hrole.
  cbn [User.role]. rewrite (existsb_eqb_notin _ _ Hnot). split; reflexivity.
Qed.

(** X3: POST /login with an email that no stored user has is answered 404
    "User not found" and leaves the database as it was. *)
Theorem login_unknown_email
  (bcrypt_compare : string -> string -> bool) (req : LoginBody.t) (s : Db) :
  find (fun u => User.email u =? LoginBody.email req) (Users s) = None ->
  login bcrypt_compare req s = (res_status 404 (JFail (Some "User not found")), s).
Proof.
  intros Hfind. plumbing. now rewrite Hfind.
Qed.

(** X4: POST /login with a password that bcrypt rejects is answered 401
    "Invalid password" and leaves the database as it was, whatever the
    requested role is: the password is checked before the role. *)
Theorem login_wrong_password
  (bcrypt_compare : string -> string -> bool) (req : LoginBody.t) (s : Db)
  (user : User.t) :
  find (fun u => User.email u =? LoginBody.email req) (Users s) = Some user ->
  bcrypt_compare (LoginBody.password req) (User.password user) = false ->
  login bcrypt_compare req s = (res_status 401 (JFail (Some "Invalid password")), s).
Proof.
  intros Hfind Hpw. plumbing. now rewrite Hfind, Hpw.
Qed.

(** ** Errors of the wishlist, product and order routes *)

Section Identifiers.
Variable Number_toExponential : Z -> string.
Variable castObjectId : string -> option ObjectId.
Variable ObjectId_toString : ObjectId -> string.

(** X5: POST /wishlist for an email that no stored user has is answered 404
    "User not found" and leaves the database as it was. *)
Theorem addToWishlist_unknown_user (req : WishlistBody.t) (s : Db) :
  find (fun u => User.email u =? WishlistBody.email req) (Users s) = None ->
  addToWishlist castObjectId ObjectId_toString req s
  = (res_status 404 (JFail (Some "User not found")), s).
Proof.
  intros Hfind. plumbing. now rewrite Hfind.
Qed.

(** X6: POST /products whose [name], [price] and [category] are truthy, with
    no uploaded file and a falsy [imageUrl], is answered 400 "Image is
    required" and leaves the database as it was. *)
Theorem createProduct_image_required
  (Number_of_string : string -> option Z) (req : ProductBody.t) (s : Db) :
  truthy (ProductBody.name req) = true ->
  truthy (ProductBody.price req) = true ->
  truthy (ProductBody.category req) = true ->
  ProductBody.file req = None ->
  truthy (ProductBody.imageUrl req) = false ->
  createProduct Number_of_string Number_toExponential req s
  = (res_status 400 (JFail (Some "Image is required")), s).
Proof.
  intros Hn Hp Hc Hf Hu. plumbing. now rewrite Hn, Hp, Hc, Hf, Hu.
Qed.

(** X7: POST /products that passes the route's own checks but whose
    [category] is not one of "men", "women", "kids" fails in [save()] and is
    answered 500 "Server error"; the Products collection is left as it
    was. *)
Theorem createProduct_category_outside_enum
  (Number_of_string : string -> option Z) (req : ProductBody.t) (s : Db) :
  truthy (ProductBody.name req) = true ->
  truthy (ProductBody.price req) = true ->
  truthy (ProductBody.category req) = true ->
  ProductBody.file req <> None \/ truthy (ProductBody.imageUrl req) = true ->
  (forall c, castString Number_toExponential (ProductBody.category req) = Some c ->
             ~ In c Product.category_enum) ->
  fst (createProduct Number_of_string Number_toExponential req s)
  = res_status 500 (JFail (Some "Server error"))
  /\ Products (snd (createProduct Number_of_string Number_toExponential req s)) = Products s.
Proof.
  intros Hn Hp Hc Himg Hcat. plumbing. rewrite Hn, Hp, Hc. cbn [negb orb].
  assert (Himage : exists image,
             match ProductBody.file req with
             | Some filename => Some (VStr ("/uploads/" ++ filename))
             | None => if truthy (ProductBody.imageUrl req)
                       then Some (ProductBody.imageUrl req) else None
             end = Some image).
  { destruct (ProductBody.file req) as [f|]; [eauto|].
    destruct Himg as [Himg|Himg]; [contradiction | rewrite Himg; eauto]. }
  destruct Himage as [image ->].
  destruct (castNumber _ _ _) as [price'|e]; [|split; reflexivity].
  destruct (castString Number_toExponential (ProductBody.category req)) as [c|] eqn:Ec; [|split; reflexivity].
  rewrite (existsb_eqb_notin _ _ (Hcat c eq_refl)). split; reflexivity.
Qed.

(** X8: POST /orders for an email that no stored user has is answered 404
    "User not found" and leaves the database as it was; the products of the
    body are not looked up, so this holds also when some do not exist. *)
Theorem createOrder_unknown_user (now : Z) (req : OrderBody.t) (s : Db) :
  find (fun u => User.email u =? OrderBody.email req) (Users s) = None ->
  createOrder castObjectId now req s = (res_status 404 (JFail (Some "User not found")), s).
Proof.
  intros Hfind. plumbing. now rewrite Hfind.
Qed.

(** ** Order status *)

Lemma updateById_absent {A} (get_id : A -> ObjectId) (id : ObjectId) (f : A -> A)
  (l : list A) :
  find (fun x => Nat.eqb (get_id x) id) l = None -> updateById get_id id f l = l.
Proof.
  induction l as [|x l IH]; simpl; [reflexivity|].
  destruct (Nat.eqb (get_id x) id); [discriminate|].
  intros H. now rewrite IH.
Qed.

Lemma find_updateById {A} (get_id : A -> ObjectId) (id : ObjectId) (f : A -> A)
  (l : list A) (x : A) :
  (forall y, get_id (f y) = get_id y) ->
  find (fun y => Nat.eqb (get_id y) id) l = Some x ->
  find (fun y => Nat.eqb (get_id y) id) (updateById get_id id f l) = Some (f x).
Proof.
  intros Hf. induction l as [|y l IH]; simpl; [discriminate|].
  destruct (Nat.eqb (get_id y) id) eqn:E.
  - intros H. injection H as ->. simpl. now rewrite Hf, E.
  - intros H. simpl. rewrite E. auto.
Qed.

Lemma Forall2_updateById {A} (R : A -> A -> Prop) (get_id : A -> ObjectId)
  (id : ObjectId) (f : A -> A) (l : list A) :
  (forall x, R x x) -> (forall x, R x (f x)) ->
  Forall2 R l (updateById get_id id f l).
Proof.
  intros Hrefl Hf. induction l as [|x l IH]; simpl; [constructor|].
  destruct (Nat.eqb (get_id x) id); constructor; auto.
  clear IH. induction l; constructor; auto.
Qed.

Lemma order_kept_refl (o : Order.t) : order_kept o o.
Proof. repeat split. Qed.

Lemma order_kept_set_status (st : string) (o : Order.t) :
  order_kept o (Order.set_status st o).
Proof. repeat split. Qed.

Lemma find_updateById_other {A} (get_id : A -> ObjectId) (id id' : ObjectId) (f : A -> A)
  (l : list A) :
  (forall y, get_id (f y) = get_id y) -> id' <> id ->
  find (fun y => Nat.eqb (get_id y) id') (updateById get_id id f l)
  = find (fun y => Nat.eqb (get_id y) id') l.
Proof.
  intros Hf Hne. induction l as [|y l IH]; simpl; [reflexivity|].
  destruct (Nat.eqb_spec (get_id y) id) as [E|E]; simpl.
  - rewrite Hf. destruct (Nat.eqb_spec (get_id y) id'); [congruence | reflexivity].
  - now rewrite IH.
Qed.

(** X9: PUT /orders/:id for a well-formed identifier that no order has is
    answered 200 with [order: null], and for a string that is no well-formed
    ObjectId 500 "Failed to update order"; either way the database is left
    as it was. *)
Theorem updateOrderStatus_unknown_id (st : string) (s : Db) :
  (forall (id : string) (id' : ObjectId),
      castObjectId id = Some id' ->
      find (fun o => Nat.eqb (Order._id o) id') (Orders s) = None ->
      updateOrderStatus castObjectId id st s = (res_json (JOrder None), s))
  /\ (forall id : string,
         castObjectId id = None ->
         updateOrderStatus castObjectId id st s
         = (res_status 500 (JFail (Some "Failed to update order")), s)).
Proof.
  split.
  - intros id id' Hcast Hfind. plumbing. rewrite Hcast. cbn [Orders].
    rewrite (updateById_absent Order._id id' _ _ Hfind), Hfind, db_eta. reflexivity.
  - intros id Hcast. plumbing. now rewrite Hcast.
Qed.

(** X10: PUT /orders/:id for a stored order writes the supplied status, any
    string, to it and answers 200 with the updated order: afterwards the
    order found under the identifier is the one of the answer, its status is
    the supplied one, and it keeps its identifier, user, lines, total and
    creation time; every other identifier is found as before, no order is
    lost, and Users and Products are left as they were. *)
Theorem updateOrderStatus_sets_status (id : string) (id' : ObjectId) (st : string)
  (s : Db) (o : Order.t) :
  castObjectId id = Some id' ->
  find (fun o => Nat.eqb (Order._id o) id') (Orders s) = Some o ->
  let s' := snd (updateOrderStatus castObjectId id st s) in
  exists o',
    fst (updateOrderStatus castObjectId id st s) = res_json (JOrder (Some o'))
    /\ find (fun o => Nat.eqb (Order._id o) id') (Orders s') = Some o'
    /\ Order.status o' = st
    /\ order_kept o o'
    /\ (forall id'', id'' <> id' ->
           find (fun o => Nat.eqb (Order._id o) id'') (Orders s')
           = find (fun o => Nat.eqb (Order._id o) id'') (Orders s))
    /\ Forall2 order_kept (Orders s) (Orders s')
    /\ Users s' = Users s
    /\ Products s' = Products s.
Proof.
  intros Hcast Hfind s'. subst s'. exists (Order.set_status st o).
  plumbing. rewrite Hcast. cbn [Orders Users Products fst snd].
  rewrite (find_updateById Order._id id' (Order.set_status st) _ o (fun _ => eq_refl) Hfind).
  split; [reflexivity|]. split; [reflexivity|]. split; [reflexivity|].
  split; [apply order_kept_set_status|]. split.
  - intros id'' Hne. now apply find_updateById_other.
  - split; [|split; reflexivity].
    apply Forall2_updateById; [apply order_kept_refl | apply order_kept_set_status].
Qed.

(** ** Stored products and orders *)


Lemma Promise_all_resolve_fulfils (ps : list OrderLine.t) (s : Db) :
  Forall (fun line => resolve castObjectId (OrderLine.productId line) (Products s) <> None)
         ps ->
  exists items, Promise_all (map (resolveLine castObjectId) ps) s = (Ok items, s)
                /\ Forall2 (snapshot_of castObjectId s) ps items.
Proof.
  induction 1 as [|line ps Hline _ [items [IH1 IH2]]]; simpl.
  - exists []. split; [reflexivity | constructor].
  - destruct (resolve castObjectId (OrderLine.productId line) (Products s))
      as [product|] eqn:Hfind; [|contradiction].
    exists (Item.mk (Product._id product) (Product.name product)
                    (Product.price product) (OrderLine.quantity line) :: items).
    split.
    + assert (Hline' : resolveLine castObjectId line s
                       = (Ok (Item.mk (Product._id product) (Product.name product)
                                (Product.price product) (OrderLine.quantity line)), s)).
      { unfold resolve in Hfind.
        unfold resolveLine, bind, Product_findById, bind, cast_id, gets, ret, throw.
        destruct (castObjectId (OrderLine.productId line)) as [id|]; [|discriminate].
        now rewrite Hfind. }
      unfold bind at 1. rewrite Hline'. unfold bind at 1. rewrite IH1. reflexivity.
    + constructor; [|exact IH2]. exists product. split; [exact Hfind | reflexivity].
Qed.

Lemma createOrder_fulfilled (now : Z) (req : OrderBody.t) (s : Db) (user : User.t) :
  find (fun u => User.email u =? OrderBody.email req) (Users s) = Some user ->
  Forall (fun line => resolve castObjectId (OrderLine.productId line) (Products s) <> None)
         (OrderBody.products req) ->
  exists items,
    Forall2 (snapshot_of castObjectId s) (OrderBody.products req) items
    /\ createOrder castObjectId now req s
       = (res_json (JOrder (Some (Order.mk (nextId s) (User._id user) items
                                    (OrderBody.totalAmount req) "Pending" now))),
          mkDb (Users s) (Products s)
               (Orders s ++ [Order.mk (nextId s) (User._id user) items
                               (OrderBody.totalAmount req) "Pending" now])
               (S (nextId s))).
Proof.
  intros Hu Hlines.
  destruct (Promise_all_resolve_fulfils _ s Hlines) as [items [Hall Hsnap]].
  exists items. split; [exact Hsnap|].
  unfold createOrder, try_catch, bind at 1, User_findOne, gets. rewrite Hu.
  unfold bind at 1. rewrite Hall.
  cbv [bind Order_new new_ObjectId ret Order_insert modify set_Orders].
  reflexivity.
Qed.

(** X12: POST /orders for a stored user, every line of which names a stored
    product (also when there is no line at all), is answered 200 with the new
    order and appends exactly it to the Orders collection: its status is
    "Pending", its creation time the clock's, its user the stored user, its
    lines the snapshots of name and price of the products in the order of
    the body, and its total the [totalAmount] of the body as sent, not a sum
    over the lines.  Users and Products are left as they were. *)
Theorem createOrder_stores (now : Z) (req : OrderBody.t) (s : Db) (user : User.t) :
  find (fun u => User.email u =? OrderBody.email req) (Users s) = Some user ->
  Forall (fun line => resolve castObjectId (OrderLine.productId line) (Products s) <> None)
         (OrderBody.products req) ->
  exists items,
    let order := Order.mk (nextId s) (User._id user) items (OrderBody.totalAmount req)
                          "Pending" now in
    Forall2 (snapshot_of castObjectId s) (OrderBody.products req) items
    /\ fst (createOrder castObjectId now req s) = res_json (JOrder (Some order))
    /\ Orders (snd (createOrder castObjectId now req s)) = Orders s ++ [order]
    /\ Users (snd (createOrder castObjectId now req s)) = Users s
    /\ Products (snd (createOrder castObjectId now req s)) = Products s.
Proof.
  intros Hu Hlines.
  destruct (createOrder_fulfilled now req s user Hu Hlines) as [items [Hsnap E]].
  exists items. cbn zeta. split; [exact Hsnap|].
  rewrite E. repeat split.
Qed.

End Identifiers.

(** ** What the requests do to each collection *)

Lemma user_extends_refl (u : User.t) : user_extends u u.
Proof.
  repeat split; auto. exists []. now rewrite app_nil_r.
Qed.

Lemma user_extends_trans (u v w : User.t) :
  user_extends u v -> user_extends v w -> user_extends u w.
Proof.
  intros (H1 & H2 & H3 & H4 & H5 & [m Hm] & H7) (K1 & K2 & K3 & K4 & K5 & [n Hn] & K7).
  repeat split; try congruence; auto.
  exists (m ++ n). now rewrite Hn, Hm, app_assoc.
Qed.

Lemma order_kept_trans (o p q : Order.t) :
  order_kept o p -> order_kept p q -> order_kept o q.
Proof.
  intros (H1 & H2 & H3 & H4 & H5) (K1 & K2 & K3 & K4 & K5).
  repeat split; congruence.
Qed.

Section Extends.
Context {A : Type} (R : A -> A -> Prop).
Hypothesis R_refl : forall x, R x x.
Hypothesis R_trans : forall x y z, R x y -> R y z -> R x z.

Lemma Forall2_same (l : list A) : Forall2 R l l.
Proof. induction l; constructor; auto. Qed.

Lemma Forall2_chain (l l1 l2 : list A) :
  Forall2 R l l1 -> Forall2 R l1 l2 -> Forall2 R l l2.
Proof.
  intros H. revert l2. induction H as [|x y l l1 Hxy _ IH]; intros l2 H2.
  - inversion H2. constructor.
  - inversion H2 as [|? z ? l2' Hyz Hrest]; subst. constructor; eauto.
Qed.

Lemma extends_refl (l : list A) : extends R l l.
Proof. exists l, []. split; [now rewrite app_nil_r | apply Forall2_same]. Qed.

Lemma extends_trans (l l' l'' : list A) :
  extends R l l' -> extends R l' l'' -> extends R l l''.
Proof.
  intros (l1 & t1 & -> & H1) (l2 & t2 & -> & H2).
  apply Forall2_app_inv_l in H2 as (l2a & l2b & Ha & Hb & ->).
  exists l2a, (l2b ++ t2). split; [now rewrite app_assoc|].
  eapply Forall2_chain; eauto.
Qed.

Lemma extends_app (l tail : list A) : extends R l (l ++ tail).
Proof. exists l, tail. split; [reflexivity | apply Forall2_same]. Qed.

Lemma extends_updateById (get_id : A -> ObjectId) (id : ObjectId) (f : A -> A)
  (l : list A) :
  (forall x, R x (f x)) -> extends R l (updateById get_id id f l).
Proof.
  intros Hf. exists (updateById get_id id f l), []. split; [now rewrite app_nil_r|].
  now apply Forall2_updateById.
Qed.
End Extends.

Lemma map_updateById {A B} (get_id : A -> ObjectId) (proj : A -> B) (id : ObjectId)
  (f : A -> A) (l : list A) :
  (forall x, proj (f x) = proj x) ->
  map proj (updateById get_id id f l) = map proj l.
Proof.
  intros Hf. induction l as [|x l IH]; simpl; [reflexivity|].
  destruct (Nat.eqb (get_id x) id); simpl; [now rewrite Hf | now rewrite IH].
Qed.

Lemma In_deleteById {A} (get_id : A -> ObjectId) (id : ObjectId) (l : list A) (x : A) :
  In x (deleteById get_id id l) -> In x l.
Proof.
  induction l as [|y l IH]; simpl; [auto|].
  destruct (Nat.eqb (get_id y) id); simpl; [auto | intros [H|H]; auto].
Qed.

Lemma NoDup_deleteById {A} (get_id : A -> ObjectId) (id : ObjectId) (l : list A) :
  NoDup (map get_id l) -> NoDup (map get_id (deleteById get_id id l)).
Proof.
  induction l as [|y l IH]; simpl; [auto|].
  intros H. inversion H as [|? ? Hy Hl]; subst.
  destruct (Nat.eqb (get_id y) id); simpl; [exact Hl|].
  constructor; [|auto].
  intros Hin. apply Hy. apply in_map_iff in Hin as [z [Ez Hz]].
  apply in_map_iff. exists z. split; [exact Ez | eapply In_deleteById; eauto].
Qed.

Lemma find_deleteById_same {A} (get_id : A -> ObjectId) (id : ObjectId) (l : list A) :
  NoDup (map get_id l) ->
  find (fun x => Nat.eqb (get_id x) id) (deleteById get_id id l) = None.
Proof.
  induction l as [|y l IH]; simpl; [reflexivity|].
  intros H. inversion H as [|? ? Hy Hl]; subst.
  destruct (Nat.eqb_spec (get_id y) id) as [E|E].
  - destruct (find (fun x => Nat.eqb (get_id x) id) l) as [z|] eqn:Hz; [|reflexivity].
    exfalso. apply find_some in Hz as [Hz Ez]. apply Nat.eqb_eq in Ez.
    apply Hy. rewrite E, <- Ez. now apply in_map.
  - simpl. destruct (Nat.eqb_spec (get_id y) id); [contradiction | auto].
Qed.

Lemma find_deleteById_other {A} (get_id : A -> ObjectId) (id id' : ObjectId) (l : list A) :
  id' <> id ->
  find (fun x => Nat.eqb (get_id x) id') (deleteById get_id id l)
  = find (fun x => Nat.eqb (get_id x) id') l.
Proof.
  intros Hne. induction l as [|y l IH]; simpl; [reflexivity|].
  destruct (Nat.eqb_spec (get_id y) id) as [E|E].
  - destruct (Nat.eqb_spec (get_id y) id'); [congruence | reflexivity].
  - simpl. now rewrite IH.
Qed.

Lemma length_deleteById {A} (get_id : A -> ObjectId) (id : ObjectId) (l : list A) (x : A) :
  find (fun y => Nat.eqb (get_id y) id) l = Some x ->
  S (length (deleteById get_id id l)) = length l.
Proof.
  induction l as [|y l IH]; simpl; [discriminate|].
  destruct (Nat.eqb (get_id y) id); [reflexivity|].
  intros H. simpl. now rewrite IH.
Qed.

Lemma deleteById_app_fresh {A} (get_id : A -> ObjectId) (l : list A) (x : A) :
  find (fun y => Nat.eqb (get_id y) (get_id x)) l = None ->
  deleteById get_id (get_id x) (l ++ [x]) = l.
Proof.
  induction l as [|y l IH]; simpl.
  - now rewrite Nat.eqb_refl.
  - destruct (Nat.eqb (get_id y) (get_id x)); [discriminate|].
    intros H. now rewrite IH.
Qed.

Lemma find_none_notin_emails (e : string) (l : list User.t) :
  find (fun v => User.email v =? e) l = None -> ~ In e (map User.email l).
Proof.
  intros H Hin. apply in_map_iff in Hin as [u [Eu Hu]].
  apply (find_none _ _ H) in Hu. rewrite Eu, String.eqb_refl in Hu. discriminate.
Qed.

Lemma find_none_below (n : nat) (l : list Product.t) :
  Forall (fun i => i < n) (map Product._id l) ->
  find (fun q => Nat.eqb (Product._id q) n) l = None.
Proof.
  intros H. destruct (find _ l) as [p|] eqn:Hp; [|reflexivity].
  apply find_some in Hp as [Hp E]. apply Nat.eqb_eq in E.
  rewrite Forall_forall in H. specialize (H _ (in_map Product._id _ _ Hp)). lia.
Qed.

Section History.
Variable bcrypt_hash : string -> string -> string.
Variable bcrypt_compare : string -> string -> bool.
Variable Number_of_string : string -> option Z.
Variable Number_toExponential : Z -> string.
Variable castObjectId : string -> option ObjectId.
Variable ObjectId_toString : ObjectId -> string.

Local Abbreviation step := (handle bcrypt_hash bcrypt_compare Number_of_string Number_toExponential castObjectId ObjectId_toString).
Local Abbreviation run := (serve bcrypt_hash bcrypt_compare Number_of_string Number_toExponential castObjectId ObjectId_toString).
Local Abbreviation reach := (reachable bcrypt_hash bcrypt_compare Number_of_string Number_toExponential castObjectId ObjectId_toString).

Lemma run_cons r rs s :
  run (r :: rs) s
  = (fst (step r s) :: fst (run rs (snd (step r s))), snd (run rs (snd (step r s)))).
Proof.
  cbn [serve]. destruct (step r s) as [resp s1]. cbn [fst snd].
  destruct (run rs s1); reflexivity.
Qed.

Lemma run_reachable rs : forall s, reach s -> reach (snd (run rs s)).
Proof.
  induction rs as [|r rs IH]; intros s Hs; [exact Hs|].
  rewrite run_cons. cbn [snd]. apply IH. now apply reachable_step.
Qed.

Lemma createOrder_state now req s :
  snd (createOrder castObjectId now req s) = s
  \/ exists o, snd (createOrder castObjectId now req s)
               = mkDb (Users s) (Products s) (Orders s ++ [o]) (S (nextId s)).
Proof.
  plumbing.
  destruct (find _ (Users s)) as [u|]; [|now left].
  pose proof (Promise_all_resolve_reads castObjectId (OrderBody.products req) s) as Hr.
  destruct (Promise_all _ s) as [[items|e] s1]; simpl in Hr; subst s1; [|now left].
  right. eexists. reflexivity.
Qed.

Lemma deleteProduct_cases id s :
  deleteProduct castObjectId id s
  = match castObjectId id with
    | Some id' => (res_json JSuccess, set_Products (deleteById Product._id id') s)
    | None => (res_status 500 (JFail (Some "Delete failed")), s)
    end.
Proof. plumbing. destruct (castObjectId id); reflexivity. Qed.

Lemma updateOrderStatus_state id st s :
  snd (updateOrderStatus castObjectId id st s)
  = match castObjectId id with
    | Some id' => set_Orders (updateById Order._id id' (Order.set_status st)) s
    | None => s
    end.
Proof. plumbing. destruct (castObjectId id); reflexivity. Qed.

Lemma addToWishlist_state req s :
  snd (addToWishlist castObjectId ObjectId_toString req s) = s
  \/ exists user p,
       snd (addToWishlist castObjectId ObjectId_toString req s)
       = set_Users (updateById User._id (User._id user) (User.wishlist_push p)) s.
Proof.
  plumbing.
  destruct (find _ (Users s)) as [u|]; [|now left].
  destruct (includes _ _ _); cbn [negb]; [now left|].
  destruct (castObjectId _) as [p|]; [|now left].
  right. now exists u, p.
Qed.

Lemma signup_state salt req s :
  Products (snd (signup bcrypt_hash salt req s)) = Products s
  /\ Orders (snd (signup bcrypt_hash salt req s)) = Orders s
  /\ nextId s <= nextId (snd (signup bcrypt_hash salt req s)).
Proof.
  plumbing.
  destruct (strict_neq _ _); [repeat split; auto|].
  destruct (find _ (Users s)) as [v|]; [repeat split; auto|].
  destruct (negb (existsb _ User.role_enum)); [repeat split; cbn; auto|].
  cbn [User.email Users].
  destruct (existsb _ (Users s)); repeat split; cbn; auto.
Qed.

Lemma login_state req s :
  Products (snd (login bcrypt_compare req s)) = Products s
  /\ Orders (snd (login bcrypt_compare req s)) = Orders s
  /\ nextId (snd (login bcrypt_compare req s)) = nextId s.
Proof.
  plumbing.
  destruct (find _ (Users s)) as [u|]; [|repeat split].
  destruct (bcrypt_compare _ _); cbn [negb]; [|repeat split].
  destruct (match LoginBody.role req with
            | Some r => strict_neq (User.role u) r
            | None => true
            end); [repeat split|].
  destruct (User.isFirstLogin u); repeat split.
Qed.

Lemma handle_users_change r s : users_change s (snd (step r s)).
Proof.
  destruct r as [salt req|req|req|c|req|id|now req|id st|]; cbn [handle].
  - plumbing.
    destruct (strict_neq _ _); [now apply uc_same|].
    destruct (find _ (Users s)) as [v|] eqn:Hfind; [now apply uc_same|].
    destruct (existsb _ User.role_enum) eqn:Hrole; cbn [negb]; [|now apply uc_same].
    cbn [User.email Users]. rewrite (find_none_existsb _ _ Hfind).
    eapply uc_added; [reflexivity | exact Hfind | now apply existsb_eqb_in].
  - plumbing.
    destruct (find _ (Users s)) as [u|]; [|now apply uc_same].
    destruct (bcrypt_compare _ _); cbn [negb]; [|now apply uc_same].
    destruct (match LoginBody.role req with
              | Some r => strict_neq (User.role u) r
              | None => true
              end); [now apply uc_same|].
    destruct (User.isFirstLogin u); [|now apply uc_same].
    eapply uc_updated; [reflexivity|].
    intros v. repeat split; auto. exists []. simpl. now rewrite app_nil_r.
  - destruct (addToWishlist_state req s) as [->|[u [p ->]]]; [now apply uc_same|].
    eapply uc_updated; [reflexivity|].
    intros v. repeat split; auto. now exists [p].
  - now apply uc_same.
  - plumbing.
    destruct (_ || _); [now apply uc_same|].
    destruct (match ProductBody.file req with
              | Some filename => Some (VStr ("/uploads/" ++ filename))
              | None => if truthy (ProductBody.imageUrl req)
                        then Some (ProductBody.imageUrl req)
                        else None
              end) as [image|]; [|now apply uc_same].
    destruct (castNumber _ _ _) as [price'|e]; [|now apply uc_same].
    destruct (castString Number_toExponential (ProductBody.category req)) as [c|];
      [|now apply uc_same].
    destruct (negb _); now apply uc_same.
  - rewrite deleteProduct_cases. destruct (castObjectId id); now apply uc_same.
  - destruct (createOrder_state now req s) as [->|[o ->]]; now apply uc_same.
  - rewrite updateOrderStatus_state. destruct (castObjectId id); now apply uc_same.
  - now apply uc_same.
Qed.

Lemma handle_products_step r s : products_step s (snd (step r s)).
Proof.
  destruct r as [salt req|req|req|c|req|id|now req|id st|]; cbn [handle].
  - destruct (signup_state salt req s) as (HP & _ & Hn). now apply ps_same.
  - destruct (login_state req s) as (HP & _ & Hn). apply ps_same; [exact HP | lia].
  - destruct (addToWishlist_state req s) as [->|[u [p ->]]]; now apply ps_same.
  - now apply ps_same.
  - plumbing.
    destruct (_ || _); [now apply ps_same|].
    destruct (match ProductBody.file req with
              | Some filename => Some (VStr ("/uploads/" ++ filename))
              | None => if truthy (ProductBody.imageUrl req)
                        then Some (ProductBody.imageUrl req)
                        else None
              end) as [image|]; [|now apply ps_same].
    destruct (castNumber _ _ _) as [price'|e]; [|apply ps_same; cbn; auto].
    destruct (castString Number_toExponential (ProductBody.category req)) as [c|];
      [|apply ps_same; cbn; auto].
    destruct (existsb _ Product.category_enum) eqn:Hc; cbn [negb];
      [|apply ps_same; cbn; auto].
    eapply ps_created; [reflexivity | reflexivity | reflexivity |].
    cbn [Product.category]. now apply existsb_eqb_in.
  - rewrite deleteProduct_cases. destruct (castObjectId id) as [id'|]; cbn [snd].
    + apply (ps_deleted _ _ id'); reflexivity.
    + now apply ps_same.
  - destruct (createOrder_state now req s) as [->|[o ->]]; apply ps_same; cbn; auto.
  - rewrite updateOrderStatus_state. destruct (castObjectId id); now apply ps_same.
  - now apply ps_same.
Qed.

Lemma handle_orders_step r s : orders_step s (snd (step r s)).
Proof.
  destruct r as [salt req|req|req|c|req|id|now req|id st|]; cbn [handle].
  - destruct (signup_state salt req s) as (_ & HO & _). now apply os_same.
  - destruct (login_state req s) as (_ & HO & _). now apply os_same.
  - destruct (addToWishlist_state req s) as [->|[u [p ->]]]; now apply os_same.
  - now apply os_same.
  - plumbing.
    destruct (_ || _); [now apply os_same|].
    destruct (match ProductBody.file req with
              | Some filename => Some (VStr ("/uploads/" ++ filename))
              | None => if truthy (ProductBody.imageUrl req)
                        then Some (ProductBody.imageUrl req)
                        else None
              end) as [image|]; [|now apply os_same].
    destruct (castNumber _ _ _) as [price'|e]; [|now apply os_same].
    destruct (castString Number_toExponential (ProductBody.category req)) as [c|];
      [|now apply os_same].
    destruct (negb _); now apply os_same.
  - rewrite deleteProduct_cases. destruct (castObjectId id); now apply os_same.
  - destruct (createOrder_state now req s) as [->|[o ->]];
      [now apply os_same | now apply (os_created _ _ o)].
  - rewrite updateOrderStatus_state. destruct (castObjectId id) as [id'|].
    + apply (os_status _ _ id' st); reflexivity.
    + now apply os_same.
  - now apply os_same.
Qed.

(** ** Invariants of the Users collection *)

(** X13: in every reachable database the stored emails are pairwise
    distinct: the check of POST /signup is the only gate a new user passes,
    and no route changes a stored email. *)
Theorem reachable_emails_distinct s :
  reachable bcrypt_hash bcrypt_compare Number_of_string Number_toExponential castObjectId ObjectId_toString s ->
  NoDup (map User.email (Users s)).
Proof.
  induction 1 as [|s r _ IH]; [constructor|].
  destruct (handle_users_change r s) as [HU | u HU Hfind _ | id f HU Hf]; rewrite HU.
  - exact IH.
  - rewrite map_app. simpl. apply NoDup_app; [exact IH | repeat constructor; simpl; tauto|].
    intros e He [<-|[]]. exact (find_none_notin_emails _ _ Hfind He).
  - rewrite map_updateById; [exact IH|]. intros x. apply (Hf x).
Qed.

(** X14: in every reachable database every stored role is "user" or
    "admin": the schema's enum is checked when a signup is saved, and no
    route changes a stored role. *)
Theorem reachable_roles_in_enum s :
  reach s -> Forall (fun u => In (User.role u) User.role_enum) (Users s).
Proof.
  induction 1 as [|s r _ IH]; [constructor|].
  destruct (handle_users_change r s) as [HU | u HU _ Hrole | id f HU Hf]; rewrite HU.
  - exact IH.
  - apply Forall_app. split; [exact IH | constructor; [assumption | constructor]].
  - apply Forall_updateById; [|exact IH].
    intros x Hx. destruct (Hf x) as (_ & _ & _ & _ & -> & _). exact Hx.
Qed.

(** X15: no sequence of requests deletes a user or changes a stored
    identifier, name, email, password or role; a stored wishlist only grows
    at its end, and a stored [isFirstLogin] that is false stays false. *)
Theorem users_never_lost rs s :
  extends user_extends (Users s) (Users (snd (run rs s))).
Proof.
  revert s. induction rs as [|r rs IH]; intros s.
  - apply extends_refl, user_extends_refl.
  - rewrite run_cons. cbn [snd].
    apply (extends_trans user_extends user_extends_trans _ (Users (snd (step r s))));
      [|apply IH].
    destruct (handle_users_change r s) as [HU | u HU _ _ | id f HU Hf]; rewrite HU.
    + apply extends_refl, user_extends_refl.
    + apply extends_app, user_extends_refl.
    + apply extends_updateById; [apply user_extends_refl | exact Hf].
Qed.

(** ** Invariants of the Orders collection *)

(** X16: no sequence of requests deletes an order or changes a stored
    order's identifier, user, lines, total or creation time; only its
    status can change, and new orders are appended. *)
Theorem orders_never_lost rs s :
  extends order_kept (Orders s) (Orders (snd (run rs s))).
Proof.
  revert s. induction rs as [|r rs IH]; intros s.
  - apply extends_refl, order_kept_refl.
  - rewrite run_cons. cbn [snd].
    apply (extends_trans order_kept order_kept_trans _ (Orders (snd (step r s))));
      [|apply IH].
    destruct (handle_orders_step r s) as [HO | o HO | id st HO]; rewrite HO.
    + apply extends_refl, order_kept_refl.
    + apply extends_app, order_kept_refl.
    + apply extends_updateById; [apply order_kept_refl | intros x; apply order_kept_set_status].
Qed.

(** ** Invariants of the Products collection *)

Lemma products_step_nextId s s' : products_step s s' -> nextId s <= nextId s'.
Proof. intros [_ H | p _ _ H _ | id _ H]; lia. Qed.

Lemma run_nextId rs : forall s, nextId s <= nextId (snd (run rs s)).
Proof.
  induction rs as [|r rs IH]; intros s; [apply le_n|].
  rewrite run_cons. cbn [snd].
  pose proof (products_step_nextId _ _ (handle_products_step r s)).
  specialize (IH (snd (step r s))). lia.
Qed.

(** X17: no sequence of requests modifies a stored product: a product found
    in the collection afterwards was in it before, field for field, or was
    created since, with an identifier drawn since. *)
Theorem products_never_modified rs s p :
  In p (Products (snd (serve bcrypt_hash bcrypt_compare Number_of_string Number_toExponential castObjectId ObjectId_toString rs s))) ->
  In p (Products s) \/ nextId s <= Product._id p.
Proof.
  revert s. induction rs as [|r rs IH]; intros s; [now left|].
  rewrite run_cons. cbn [snd]. intros Hin.
  pose proof (handle_products_step r s) as Hstep.
  pose proof (products_step_nextId _ _ Hstep) as Hn.
  destruct (IH _ Hin) as [Hin1|Hnew]; [|right; lia].
  destruct Hstep as [HP _ | q HP Hid _ _ | id HP _]; rewrite HP in Hin1.
  - now left.
  - apply in_app_or in Hin1 as [Hin1|[<-|[]]]; [now left | right; lia].
  - left. eapply In_deleteById; eauto.
Qed.

Lemma products_step_wf s s' : products_step s s' -> wf_products s -> wf_products s'.
Proof.
  intros Hstep [Hnd Hlt]. destruct Hstep as [HP Hn | p HP Hid Hn _ | id HP Hn].
  - split; rewrite HP; [exact Hnd|].
    eapply Forall_impl; [|exact Hlt]. simpl. lia.
  - split; rewrite HP, map_app; simpl; rewrite Hid.
    + apply NoDup_push; [exact Hnd|].
      intros Hin. rewrite Forall_forall in Hlt. specialize (Hlt _ Hin). lia.
    + apply Forall_app. split.
      * eapply Forall_impl; [|exact Hlt]. simpl. lia.
      * repeat constructor. lia.
  - split; rewrite HP.
    + now apply NoDup_deleteById.
    + rewrite Hn. rewrite Forall_forall in *. intros i Hi. apply Hlt.
      apply in_map_iff in Hi as [q [<- Hq]]. apply in_map. eapply In_deleteById; eauto.
Qed.

Lemma reachable_wf_products s : reach s -> wf_products s.
Proof.
  induction 1 as [|s r _ IH]; [split; simpl; constructor|].
  exact (products_step_wf _ _ (handle_products_step r s) IH).
Qed.

Lemma Forall_deleteById {A} (P : A -> Prop) (get_id : A -> ObjectId) id (l : list A) :
  Forall P l -> Forall P (deleteById get_id id l).
Proof.
  rewrite !Forall_forall. intros H x Hx. apply H. eapply In_deleteById; eauto.
Qed.

(** X18: in every reachable database every stored product's category is
    "men", "women" or "kids". *)
Theorem reachable_categories_in_enum s :
  reach s -> Forall (fun p => In (Product.category p) Product.category_enum) (Products s).
Proof.
  induction 1 as [|s r _ IH]; [constructor|].
  destruct (handle_products_step r s) as [HP _ | p HP _ _ Hc | id HP _]; rewrite HP.
  - exact IH.
  - apply Forall_app. split; [exact IH | constructor; [assumption | constructor]].
  - now apply Forall_deleteById.
Qed.

(** X19: in every reachable database DELETE /products/:id of a stored
    product answers 200 and removes exactly that product: the identifier is
    no longer found, the collection is one shorter, and every other
    identifier is found as before. *)
Theorem deleteProduct_removes s (id : string) (id' : ObjectId) p :
  reachable bcrypt_hash bcrypt_compare Number_of_string Number_toExponential
            castObjectId ObjectId_toString s ->
  castObjectId id = Some id' ->
  find (fun q => Nat.eqb (Product._id q) id') (Products s) = Some p ->
  let s' := snd (deleteProduct castObjectId id s) in
  fst (deleteProduct castObjectId id s) = res_json JSuccess
  /\ find (fun q => Nat.eqb (Product._id q) id') (Products s') = None
  /\ S (length (Products s')) = length (Products s)
  /\ (forall id'', id'' <> id' ->
         find (fun q => Nat.eqb (Product._id q) id'') (Products s')
         = find (fun q => Nat.eqb (Product._id q) id'') (Products s)).
Proof.
  intros Hreach Hcast Hfind s'. subst s'.
  destruct (reachable_wf_products s Hreach) as [Hnd _].
  rewrite deleteProduct_cases, Hcast. cbn [fst snd Products set_Products].
  split; [reflexivity|]. split; [now apply find_deleteById_same|].
  split; [now apply (length_deleteById Product._id id' _ p)|].
  intros id'' Hne. now apply find_deleteById_other.
Qed.

(** X20: in every reachable database DELETE /products/:id is idempotent: a
    second request for the same identifier is answered as the first was and
    leaves the database exactly as the first left it; the answer is 200 for
    a well-formed identifier and 500 "Delete failed" for a string that is no
    well-formed ObjectId. *)
Theorem deleteProduct_twice s (id : string) :
  reachable bcrypt_hash bcrypt_compare Number_of_string Number_toExponential
            castObjectId ObjectId_toString s ->
  deleteProduct castObjectId id (snd (deleteProduct castObjectId id s))
  = (fst (deleteProduct castObjectId id s), snd (deleteProduct castObjectId id s))
  /\ fst (deleteProduct castObjectId id s)
     = match castObjectId id with
       | Some _ => res_json JSuccess
       | None => res_status 500 (JFail (Some "Delete failed"))
       end.
Proof.
  intros Hreach.
  destruct (reachable_wf_products s Hreach) as [Hnd _].
  pose proof (deleteProduct_cases id s) as E.
  destruct (castObjectId id) as [id'|] eqn:Hcast; rewrite E; cbn [fst snd];
    rewrite deleteProduct_cases, Hcast; (split; [|reflexivity]); [|reflexivity].
  f_equal. unfold set_Products. cbn [Products Users Orders nextId].
  rewrite (deleteById_absent Product._id id' (deleteById Product._id id' (Products s)));
    [reflexivity|].
  now apply find_deleteById_same.
Qed.

Lemma createProduct_created req s p :
  fst (createProduct Number_of_string Number_toExponential req s) = res_json (JProduct p) ->
  Products (snd (createProduct Number_of_string Number_toExponential req s)) = Products s ++ [p]
  /\ Product._id p = nextId s.
Proof.
  plumbing.
  destruct (_ || _); [discriminate|].
  destruct (match ProductBody.file req with
            | Some filename => Some (VStr ("/uploads/" ++ filename))
            | None => if truthy (ProductBody.imageUrl req)
                      then Some (ProductBody.imageUrl req)
                      else None
            end) as [image|]; [|discriminate].
  destruct (castNumber _ _ _) as [price'|e]; [|discriminate].
  destruct (castString Number_toExponential (ProductBody.category req)) as [c|]; [|discriminate].
  destruct (negb _); [discriminate|].
  cbn. intros H. injection H as <-. split; reflexivity.
Qed.

(** X21: in every reachable database a product that POST /products has just
    stored is found under the identifier of the response, and DELETE
    /products/:id with a spelling of that identifier gives back the Products
    collection as it was before the product was added. *)
Theorem createProduct_then_delete s req p (id : string) :
  reachable bcrypt_hash bcrypt_compare Number_of_string Number_toExponential
            castObjectId ObjectId_toString s ->
  fst (createProduct Number_of_string Number_toExponential req s) = res_json (JProduct p) ->
  castObjectId id = Some (Product._id p) ->
  let s1 := snd (createProduct Number_of_string Number_toExponential req s) in
  find (fun q => Nat.eqb (Product._id q) (Product._id p)) (Products s1) = Some p
  /\ Products (snd (deleteProduct castObjectId id s1)) = Products s.
Proof.
  intros Hreach Hresp Hcast s1. subst s1.
  destruct (createProduct_created req s p Hresp) as [HP Hid].
  destruct (reachable_wf_products s Hreach) as [_ Hlt].
  assert (Hfresh : find (fun q => Nat.eqb (Product._id q) (Product._id p)) (Products s)
                   = None)
    by (rewrite Hid; now apply find_none_below).
  split.
  - rewrite HP, (find_app_none _ _ _ Hfresh). simpl. now rewrite Nat.eqb_refl.
  - rewrite deleteProduct_cases, Hcast. cbn [snd Products set_Products].
    rewrite HP. now apply deleteById_app_fresh.
Qed.

(** ** The wishlist listing *)

Lemma getWishlist_found email s user :
  find (fun u => User.email u =? email) (Users s) = Some user ->
  getWishlist email s
  = (res_json (JProducts (populate_wishlist (Products s) (User.wishlist user))), s).
Proof.
  intros Hfind. plumbing. now rewrite Hfind.
Qed.

Lemma In_populate products wishlist p :
  In p (populate_wishlist products wishlist) ->
  In (Product._id p) wishlist
  /\ find (fun q => Nat.eqb (Product._id q) (Product._id p)) products = Some p.
Proof.
  unfold populate_wishlist. intros H.
  apply in_flat_map in H as [id [Hid Hp]].
  destruct (find (fun q => Nat.eqb (Product._id q) id) products) as [q|] eqn:Hq;
    [|contradiction].
  destruct Hp as [->|[]].
  pose proof (find_some _ _ Hq) as [_ E]. apply Nat.eqb_eq in E. subst id.
  now split.
Qed.

Lemma populate_In products wishlist id p :
  In id wishlist ->
  find (fun q => Nat.eqb (Product._id q) id) products = Some p ->
  In p (populate_wishlist products wishlist).
Proof.
  intros Hid Hp. unfold populate_wishlist. apply in_flat_map.
  exists id. split; [exact Hid|]. rewrite Hp. now left.
Qed.

(** X22: GET /wishlist/:email for an email that no stored user has is
    answered 404 "User not found" and leaves the database as it was. *)
Theorem getWishlist_unknown_user (email : string) (s : Db) :
  find (fun u => User.email u =? email) (Users s) = None ->
  getWishlist email s = (res_status 404 (JFail (Some "User not found")), s).
Proof.
  intros Hfind. plumbing. now rewrite Hfind.
Qed.

(** X23: GET /wishlist/:email for a stored user answers 200 with full
    product documents and leaves the database as it was: the identifiers of
    the listed products are the stored wishlist, in its order, without the
    identifiers that no longer name a product, and every listed product is
    the stored product of its identifier. *)
Theorem getWishlist_lists_stored (email : string) (s : Db) (user : User.t) :
  find (fun u => User.email u =? email) (Users s) = Some user ->
  exists listed,
    getWishlist email s = (res_json (JProducts listed), s)
    /\ map Product._id listed
       = filter (fun id => existsb (fun q => Nat.eqb (Product._id q) id) (Products s))
                (User.wishlist user)
    /\ Forall (fun p => find (fun q => Nat.eqb (Product._id q) (Product._id p)) (Products s)
                         = Some p) listed.
Proof.
  intros Hfind. exists (populate_wishlist (Products s) (User.wishlist user)).
  split; [now apply getWishlist_found|]. split.
  - unfold populate_wishlist.
    induction (User.wishlist user) as [|id l IH]; simpl; [reflexivity|].
    rewrite map_app, IH.
    destruct (find (fun q => Nat.eqb (Product._id q) id) (Products s)) as [q|] eqn:Hq.
    + pose proof (find_some _ _ Hq) as [Hin E].
      assert (Hex : existsb (fun q => Nat.eqb (Product._id q) id) (Products s) = true)
        by (apply existsb_exists; eauto).
      rewrite Hex. apply Nat.eqb_eq in E. simpl. now rewrite E.
    + now rewrite (find_none_existsb _ _ Hq).
  - apply Forall_forall. intros p Hp. now apply In_populate in Hp.
Qed.

(** X24: in every reachable database, after POST /wishlist for a stored user
    and a stored product, GET /wishlist/:email of that user lists the
    product.  The identifiers of the stored wishlist are taken to cast back
    from what they print as, as ObjectIds do. *)
Theorem wishlist_add_then_list s (req : WishlistBody.t) (user : User.t)
  (id : ObjectId) (p : Product.t) :
  reachable bcrypt_hash bcrypt_compare Number_of_string Number_toExponential
            castObjectId ObjectId_toString s ->
  find (fun u => User.email u =? WishlistBody.email req) (Users s) = Some user ->
  castObjectId (WishlistBody.productId req) = Some id ->
  find (fun q => Nat.eqb (Product._id q) id) (Products s) = Some p ->
  Forall (fun y => castObjectId (ObjectId_toString y) = Some y) (User.wishlist user) ->
  exists listed,
    fst (getWishlist (WishlistBody.email req)
           (snd (addToWishlist castObjectId ObjectId_toString req s)))
    = res_json (JProducts listed)
    /\ In p listed.
Proof.
  intros Hreach Hfind Hcast Hp Hprint.
  pose proof (reachable_wf bcrypt_hash bcrypt_compare Number_of_string Number_toExponential
                castObjectId ObjectId_toString s Hreach) as Hwf.
  rewrite (addToWishlist_found castObjectId ObjectId_toString req s user Hfind), Hcast.
  destruct (includes _ _ _) eqn:Hinc; cbn [snd].
  - rewrite (getWishlist_found _ s user Hfind). eexists. split; [reflexivity|].
    apply (populate_In _ _ id); [|exact Hp].
    unfold includes in Hinc. apply existsb_exists in Hinc as [y [Hy E]].
    apply String.eqb_eq in E.
    rewrite Forall_forall in Hprint. specialize (Hprint y Hy).
    rewrite <- E, Hcast in Hprint. injection Hprint as ->. exact Hy.
  - pose proof (find_after_push _ id s user Hwf Hfind) as Hfind1.
    rewrite (getWishlist_found (WishlistBody.email req)
               (set_Users (updateById User._id (User._id user) (User.wishlist_push id)) s)
               _ Hfind1).
    eexists. split; [reflexivity|].
    apply (populate_In _ _ id); [|exact Hp].
    simpl. apply in_or_app. right. now left.
Qed.

(** X25: in every reachable database, after DELETE /products/:id no
    wishlist listing shows a product of that identifier, although the
    identifier stays in the stored wishlists. *)
Theorem deleted_product_not_listed s (id : string) (id' : ObjectId) (email : string)
  (user : User.t) :
  reachable bcrypt_hash bcrypt_compare Number_of_string Number_toExponential
            castObjectId ObjectId_toString s ->
  castObjectId id = Some id' ->
  find (fun u => User.email u =? email) (Users s) = Some user ->
  let s' := snd (deleteProduct castObjectId id s) in
  exists listed,
    fst (getWishlist email s') = res_json (JProducts listed)
    /\ Forall (fun p => Product._id p <> id') listed
    /\ find (fun u => User.email u =? email) (Users s') = Some user.
Proof.
  intros Hreach Hcast Hfind s'. subst s'.
  destruct (reachable_wf_products s Hreach) as [Hnd _].
  rewrite deleteProduct_cases, Hcast. cbn [snd].
  assert (Hfind' : find (fun u => User.email u =? email)
                     (Users (set_Products (deleteById Product._id id') s))
                   = Some user) by exact Hfind.
  rewrite (getWishlist_found email _ user Hfind').
  eexists. split; [reflexivity|]. split; [|exact Hfind'].
  apply Forall_forall. intros p Hp E.
  apply In_populate in Hp as [_ Hp]. rewrite E in Hp.
  assert (Hnone : find (fun q => Nat.eqb (Product._id q) id')
                    (Products (set_Products (deleteById Product._id id') s)) = None)
    by (now apply (find_deleteById_same Product._id id' (Products s))).
  congruence.
Qed.

(** ** Analytics after a write *)

Lemma getAnalytics_response s :
  fst (getAnalytics s)
  = res_json (JAnalytics (length (Users s))
                (length (filter (fun u => User.role u =? "admin") (Users s)))
                (length (Products s))
                (length (Orders s))
                (VNum (revenue_sum (Orders s)))).
Proof.
  plumbing. unfold countDocuments, Order_aggregate_revenue, gets.
  rewrite !filter_all. cbn [fst]. do 2 f_equal.
  destruct (Orders s) as [|o l] eqn:E; [reflexivity|].
  now rewrite js_or_zero, fold_left_revenue.
Qed.

Lemma revenue_sum_app l l' :
  revenue_sum (l ++ l') = (revenue_sum l + revenue_sum l')%Z.
Proof.
  induction l as [|o l IH]; simpl; [reflexivity | rewrite IH; lia].
Qed.

(** X26: after a POST /orders that was answered 200, GET /analytics counts
    one order more and reports a revenue higher by exactly the
    [totalAmount] that the body of the order carried. *)
Theorem analytics_after_order now req s order :
  fst (createOrder castObjectId now req s) = res_json (JOrder (Some order)) ->
  let s' := snd (createOrder castObjectId now req s) in
  totalOrders (fst (getAnalytics s')) = Some (S (length (Orders s)))
  /\ totalRevenue (fst (getAnalytics s'))
     = Some (VNum (revenue_sum (Orders s) + OrderBody.totalAmount req)).
Proof.
  intros Hresp s'. subst s'. rewrite getAnalytics_response.
  cbn [totalOrders totalRevenue body res_json].
  assert (E : Orders (snd (createOrder castObjectId now req s))
              = Orders s ++ [order]
              /\ Order.totalAmount order = OrderBody.totalAmount req).
  { revert Hresp. plumbing.
    destruct (find _ (Users s)) as [u|]; [|discriminate].
    pose proof (Promise_all_resolve_reads castObjectId (OrderBody.products req) s) as Hr.
    destruct (Promise_all _ s) as [[items|e] s1]; simpl in Hr; subst s1; [|discriminate].
    cbn. intros H. injection H as <-. split; reflexivity. }
  destruct E as [-> <-].
  rewrite length_app, revenue_sum_app. simpl.
  split; do 2 f_equal; lia.
Qed.

(** X27: after a POST /signup that was answered 200, GET /analytics counts
    one user more, and one admin more exactly when the role of the answer
    is "admin". *)
Theorem analytics_after_signup salt req s role :
  fst (signup bcrypt_hash salt req s) = res_json (JRole role) ->
  let s' := snd (signup bcrypt_hash salt req s) in
  totalUsers (fst (getAnalytics s')) = Some (S (length (Users s)))
  /\ totalAdmins (fst (getAnalytics s'))
     = Some (length (filter (fun u => User.role u =? "admin") (Users s))
             + (if role =? "admin" then 1 else 0)).
Proof.
  intros Hresp s'. subst s'. rewrite getAnalytics_response.
  cbn [totalUsers totalAdmins body res_json].
  destruct (signup_success bcrypt_hash salt req s role Hresp) as [_ ->].
  rewrite filter_app, !length_app. cbn [filter User.role length].
  destruct (role =? "admin"); cbn [length]; split; f_equal; lia.
Qed.

End History.

(** ** Listing products *)

(** X28: GET /products leaves the database as it was and answers 200 with
    the stored products in their order: all of them when the query carries
    no category or an empty one, and otherwise the stored products whose
    category is the queried string, each once and in the stored order, and no
    other. *)
Theorem listProducts_filters :
  (forall s, listProducts None s = (res_json (JProducts (Products s)), s))
  /\ (forall s, listProducts (Some "") s = (res_json (JProducts (Products s)), s))
  /\ (forall c s, c <> "" ->
         listProducts (Some c) s
         = (res_json (JProducts (filter (fun p => Product.category p =? c) (Products s))), s)
         /\ (forall p, In p (filter (fun p => Product.category p =? c) (Products s))
                       <-> In p (Products s) /\ Product.category p = c)).
Proof.
  split; [reflexivity|]. split; [reflexivity|].
  intros c s Hc. split.
  - plumbing. destruct (String.eqb_spec c ""); [contradiction | reflexivity].
  - intros p. rewrite filter_In. now rewrite String.eqb_eq.
Qed.

(** ** Names of uploaded files *)

Lemma dashless_digits (d : Decimal.uint) : dashless (NilEmpty.string_of_uint d).
Proof.
  induction d; simpl; try exact I; (split; [discriminate | assumption]).
Qed.

Lemma dashless_Number_toString (n : Z) : (0 <= n)%Z -> dashless (Number_toString n).
Proof.
  intros Hn. unfold Number_toString. destruct n as [|p|p]; [simpl; now split| |lia].
  simpl. unfold NilZero.string_of_uint.
  destruct (Pos.to_uint p); try (simpl; now split); apply dashless_digits.
Qed.

Lemma Number_toString_inj (n m : Z) : Number_toString n = Number_toString m -> n = m.
Proof.
  unfold Number_toString. intros H.
  assert (Hnil : forall z, Z.to_int z <> Decimal.Pos Decimal.Nil
                           /\ Z.to_int z <> Decimal.Neg Decimal.Nil).
  { intros [|p|p]; simpl; split; try discriminate; intros E; injection E as E;
      exact (DecimalPos.Unsigned.to_uint_nonnil p E). }
  assert (E : Some (Z.to_int n) = Some (Z.to_int m)).
  { rewrite <- (NilZero.isi (Z.to_int n)), <- (NilZero.isi (Z.to_int m));
      try apply Hnil. now rewrite H. }
  injection E as E. now apply DecimalZ.to_int_inj.
Qed.

Lemma split_at_dash (a b x y : string) :
  dashless a -> dashless b ->
  (a ++ "-" ++ x)%string = (b ++ "-" ++ y)%string -> a = b /\ x = y.
Proof.
  revert b. induction a as [|c a IH]; intros [|d b] Ha Hb; simpl in *.
  - intros H. injection H as ->. now split.
  - intros H. injection H as <- _. now destruct Hb.
  - intros H. injection H as -> _. now destruct Ha.
  - intros H. injection H as -> H. destruct Ha as [_ Ha], Hb as [_ Hb].
    destruct (IH b Ha Hb H) as [-> ->]. now split.
Qed.

(** X29: the name under which an upload is stored determines both the time
    of the upload and the original name: two uploads get the same stored
    name only when they have the same original name and arrive in the same
    millisecond. *)
Theorem upload_filename_injective (now now' : Z) (name name' : string) :
  (0 <= now)%Z -> (0 <= now')%Z ->
  upload_filename now name = upload_filename now' name' ->
  now = now' /\ name = name'.
Proof.
  intros Hn Hn' H. unfold upload_filename in H.
  apply split_at_dash in H as [H ->]; try now apply dashless_Number_toString.
  split; [now apply Number_toString_inj | reflexivity].
Qed.

(** * The further properties on the shop *)

Lemma Shop_db_reachable :
  reachable Sample.hash Sample.compare Sample.Number_of_string Sample.Number_toExponential
            Sample.castObjectId Sample.ObjectId_toString Shop.db.
Proof.
  apply (run_reachable Sample.hash Sample.compare Sample.Number_of_string
           Sample.Number_toExponential Sample.castObjectId Sample.ObjectId_toString
           Shop.history).
  apply reachable_init.
Qed.

Lemma signup_email_taken_witness :
  signup Sample.hash "salt" Sample.signup_alice Shop.db
  = (res_status 409 (JFail (Some "Email already exists")), Shop.db).
Proof.
  apply (signup_email_taken Sample.hash "salt" Sample.signup_alice Shop.db Shop.alice);
    reflexivity.
Defined.

Lemma signup_role_outside_enum_witness :
  fst (signup Sample.hash "salt" Shop.signup_root Shop.db)
  = res_status 500 (JFail (Some "Server error"))
  /\ Users (snd (signup Sample.hash "salt" Shop.signup_root Shop.db)) = Users Shop.db.
Proof.
  apply (signup_role_outside_enum Sample.hash "salt" Shop.signup_root Shop.db "root");
    try reflexivity.
  simpl. intros [H|[H|[]]]; discriminate.
Defined.

Lemma login_unknown_email_witness :
  login Sample.compare (LoginBody.mk "bob@example.com" "secret" None) Shop.db
  = (res_status 404 (JFail (Some "User not found")), Shop.db).
Proof.
  apply (login_unknown_email Sample.compare _ Shop.db). reflexivity.
Defined.

Lemma login_wrong_password_witness :
  login Sample.compare (LoginBody.mk "alice@example.com" "wrong" (Some "admin")) Shop.db
  = (res_status 401 (JFail (Some "Invalid password")), Shop.db).
Proof.
  apply (login_wrong_password Sample.compare _ Shop.db Shop.alice); reflexivity.
Defined.

Lemma addToWishlist_unknown_user_witness :
  addToWishlist Sample.castObjectId Sample.ObjectId_toString
    (WishlistBody.mk "bob@example.com" "000000000000000000000001") Shop.db
  = (res_status 404 (JFail (Some "User not found")), Shop.db).
Proof.
  apply (addToWishlist_unknown_user Sample.castObjectId Sample.ObjectId_toString _ Shop.db).
  reflexivity.
Defined.

Lemma createProduct_image_required_witness :
  createProduct Sample.Number_of_string Sample.Number_toExponential Shop.no_image Shop.db
  = (res_status 400 (JFail (Some "Image is required")), Shop.db).
Proof.
  apply (createProduct_image_required Sample.Number_toExponential Sample.Number_of_string
           Shop.no_image Shop.db);
    reflexivity.
Defined.

Lemma createProduct_category_outside_enum_witness :
  fst (createProduct Sample.Number_of_string Sample.Number_toExponential Shop.unisex Shop.db)
  = res_status 500 (JFail (Some "Server error"))
  /\ Products (snd (createProduct Sample.Number_of_string Sample.Number_toExponential
                      Shop.unisex Shop.db))
     = Products Shop.db.
Proof.
  apply (createProduct_category_outside_enum Sample.Number_toExponential
           Sample.Number_of_string Shop.unisex Shop.db);
    try reflexivity.
  - right. reflexivity.
  - simpl. intros c E. injection E as <-. intros [H|[H|[H|[]]]]; discriminate.
Defined.

Lemma createOrder_unknown_user_witness :
  createOrder Sample.castObjectId 5 Shop.order_bob Shop.db
  = (res_status 404 (JFail (Some "User not found")), Shop.db).
Proof.
  apply (createOrder_unknown_user Sample.castObjectId 5%Z Shop.order_bob Shop.db).
  reflexivity.
Defined.

Lemma updateOrderStatus_unknown_id_witness :
  updateOrderStatus Sample.castObjectId "000000000000000000000009" "Shipped" Shop.db
  = (res_json (JOrder None), Shop.db)
  /\ updateOrderStatus Sample.castObjectId "9" "Shipped" Shop.db
     = (res_status 500 (JFail (Some "Failed to update order")), Shop.db).
Proof.
  destruct (updateOrderStatus_unknown_id Sample.castObjectId "Shipped" Shop.db)
    as [Hok Hbad].
  split.
  - apply (Hok "000000000000000000000009" 9); reflexivity.
  - apply (Hbad "9"). reflexivity.
Defined.

Lemma updateOrderStatus_sets_status_witness :
  exists o',
    fst (updateOrderStatus Sample.castObjectId "000000000000000000000003" "Lost" Shop.db)
    = res_json (JOrder (Some o'))
    /\ find (fun o => Nat.eqb (Order._id o) 3)
            (Orders (snd (updateOrderStatus Sample.castObjectId
                            "000000000000000000000003" "Lost" Shop.db)))
       = Some o'
    /\ Order.status o' = "Lost".
Proof.
  destruct (updateOrderStatus_sets_status Sample.castObjectId
              "000000000000000000000003" 3 "Lost" Shop.db Shop.stored_order)
    as [o' [H1 [H2 [H3 _]]]]; try reflexivity.
  exists o'. split; [exact H1 | split; [exact H2 | exact H3]].
Defined.


Lemma createOrder_stores_witness :
  exists items,
    Forall2 (snapshot_of Sample.castObjectId Shop.db) (OrderBody.products Shop.order_both)
            items
    /\ fst (createOrder Sample.castObjectId 5 Shop.order_both Shop.db)
       = res_json (JOrder (Some (Order.mk 4 0 items 5%Z "Pending" 5%Z))).
Proof.
  destruct (createOrder_stores Sample.castObjectId 5%Z Shop.order_both Shop.db Shop.alice)
    as [items [H1 [H2 _]]].
  - reflexivity.
  - repeat constructor; intros H; vm_compute in H; discriminate H.
  - exists items. split; [exact H1 | exact H2].
Defined.

Lemma reachable_emails_distinct_witness : NoDup (map User.email (Users Shop.db)).
Proof.
  apply (reachable_emails_distinct Sample.hash Sample.compare Sample.Number_of_string
           Sample.Number_toExponential Sample.castObjectId Sample.ObjectId_toString).
  apply Shop_db_reachable.
Defined.

Lemma reachable_roles_in_enum_witness :
  Forall (fun u => In (User.role u) User.role_enum) (Users Shop.db).
Proof.
  apply (reachable_roles_in_enum Sample.hash Sample.compare Sample.Number_of_string
           Sample.Number_toExponential Sample.castObjectId Sample.ObjectId_toString).
  apply Shop_db_reachable.
Defined.

(** The tee, stored before a scarf is added and the cap deleted, is still
    there afterwards: it was in the collection before, and its identifier is
    below the counter. *)
Lemma products_never_modified_witness :
  (In Sample.tee (Products Shop.db) \/ nextId Shop.db <= Product._id Sample.tee)
  /\ ~ nextId Shop.db <= Product._id Sample.tee.
Proof.
  split.
  - apply (products_never_modified Sample.hash Sample.compare Sample.Number_of_string
             Sample.Number_toExponential Sample.castObjectId Sample.ObjectId_toString
             [POST_products Shop.scarf; DELETE_products "000000000000000000000002"]
             Shop.db Sample.tee).
    vm_compute. left. reflexivity.
  - vm_compute. lia.
Defined.

Lemma reachable_categories_in_enum_witness :
  Forall (fun p => In (Product.category p) Product.category_enum) (Products Shop.db).
Proof.
  apply (reachable_categories_in_enum Sample.hash Sample.compare Sample.Number_of_string
           Sample.Number_toExponential Sample.castObjectId Sample.ObjectId_toString).
  apply Shop_db_reachable.
Defined.

Lemma deleteProduct_removes_witness :
  let s' := snd (deleteProduct Sample.castObjectId "000000000000000000000001" Shop.db) in
  find (fun q => Nat.eqb (Product._id q) 1) (Products s') = None
  /\ S (length (Products s')) = length (Products Shop.db).
Proof.
  intros s'.
  destruct (deleteProduct_removes Sample.hash Sample.compare Sample.Number_of_string
              Sample.Number_toExponential Sample.castObjectId Sample.ObjectId_toString
              Shop.db "000000000000000000000001" 1 Sample.tee) as [_ [H1 [H2 _]]].
  - apply Shop_db_reachable.
  - reflexivity.
  - reflexivity.
  - split; [exact H1 | exact H2].
Defined.

Lemma deleteProduct_twice_witness :
  let once := deleteProduct Sample.castObjectId "000000000000000000000001" Shop.db in
  deleteProduct Sample.castObjectId "000000000000000000000001" (snd once)
  = (fst once, snd once)
  /\ fst once = res_json JSuccess.
Proof.
  apply (deleteProduct_twice Sample.hash Sample.compare Sample.Number_of_string
           Sample.Number_toExponential Sample.castObjectId Sample.ObjectId_toString
           Shop.db "000000000000000000000001").
  apply Shop_db_reachable.
Defined.

Lemma createProduct_then_delete_witness :
  Products (snd (deleteProduct Sample.castObjectId "000000000000000000000004"
                   (snd (createProduct Sample.Number_of_string Sample.Number_toExponential
                           Shop.scarf Shop.db))))
  = Products Shop.db.
Proof.
  apply (createProduct_then_delete Sample.hash Sample.compare Sample.Number_of_string
           Sample.Number_toExponential Sample.castObjectId Sample.ObjectId_toString
           Shop.db Shop.scarf Shop.stored_scarf "000000000000000000000004").
  - apply Shop_db_reachable.
  - reflexivity.
  - reflexivity.
Defined.

Lemma getWishlist_unknown_user_witness :
  getWishlist "bob@example.com" Shop.db
  = (res_status 404 (JFail (Some "User not found")), Shop.db).
Proof.
  apply (getWishlist_unknown_user "bob@example.com" Shop.db). reflexivity.
Defined.

Lemma getWishlist_lists_stored_witness :
  exists listed,
    getWishlist "alice@example.com" Shop.db = (res_json (JProducts listed), Shop.db)
    /\ map Product._id listed = [1].
Proof.
  destruct (getWishlist_lists_stored "alice@example.com" Shop.db Shop.alice)
    as [listed [H1 [H2 _]]].
  - reflexivity.
  - exists listed. split; [exact H1 | exact H2].
Defined.

Lemma wishlist_add_then_list_witness :
  exists listed,
    fst (getWishlist "alice@example.com"
           (snd (addToWishlist Sample.castObjectId Sample.ObjectId_toString
                   (WishlistBody.mk "alice@example.com" "000000000000000000000002")
                   Shop.db)))
    = res_json (JProducts listed)
    /\ In Shop.stored_cap listed.
Proof.
  apply (wishlist_add_then_list Sample.hash Sample.compare Sample.Number_of_string
           Sample.Number_toExponential Sample.castObjectId Sample.ObjectId_toString
           Shop.db (WishlistBody.mk "alice@example.com" "000000000000000000000002")
           Shop.alice 2 Shop.stored_cap).
  - apply Shop_db_reachable.
  - reflexivity.
  - reflexivity.
  - reflexivity.
  - repeat constructor.
Defined.

Lemma deleted_product_not_listed_witness :
  exists listed,
    fst (getWishlist "alice@example.com"
           (snd (deleteProduct Sample.castObjectId "000000000000000000000001" Shop.db)))
    = res_json (JProducts listed)
    /\ Forall (fun p => Product._id p <> 1) listed.
Proof.
  destruct (deleted_product_not_listed Sample.hash Sample.compare Sample.Number_of_string
              Sample.Number_toExponential Sample.castObjectId Sample.ObjectId_toString
              Shop.db "000000000000000000000001" 1 "alice@example.com" Shop.alice)
    as [listed [H1 [H2 _]]].
  - apply Shop_db_reachable.
  - reflexivity.
  - reflexivity.
  - exists listed. split; [exact H1 | exact H2].
Defined.

Lemma analytics_after_order_witness :
  let s' := snd (createOrder Sample.castObjectId 5 Shop.order_both Shop.db) in
  totalOrders (fst (getAnalytics s')) = Some 2
  /\ totalRevenue (fst (getAnalytics s')) = Some (VNum (998 + 5)).
Proof.
  apply (analytics_after_order Sample.castObjectId 5%Z Shop.order_both Shop.db
           Shop.stored_order_both).
  reflexivity.
Defined.

Lemma analytics_after_signup_witness :
  totalUsers (fst (getAnalytics Sample.after_signup)) = Some 1
  /\ totalAdmins (fst (getAnalytics Sample.after_signup)) = Some 0.
Proof.
  apply (analytics_after_signup Sample.hash "salt" Sample.signup_alice empty_db "user").
  reflexivity.
Defined.

Lemma listProducts_filters_witness :
  listProducts (Some "kids") Shop.db = (res_json (JProducts [Shop.stored_cap]), Shop.db).
Proof.
  destruct listProducts_filters as [_ [_ H]].
  destruct (H "kids" Shop.db) as [H1 _]; [discriminate|].
  exact H1.
Defined.

Lemma upload_filename_injective_witness :
  1700000000000%Z = 1700000000000%Z /\ "cap.png" = "cap.png".
Proof.
  apply (upload_filename_injective 1700000000000 1700000000000 "cap.png" "cap.png");
    [lia | lia | reflexivity].
Defined.
